(** * The Yandex Disk resource client: [disk_api/utils.py]

    A shallow embedding of [ResourceRequestParams] (the request-parameter
    model with its nested option enumerations) and of [ResourceOperations]
    (the listing fetch and the sequential download loop), followed by the
    properties of the client's contract.

    Python values are modelled as follows: [str] and [bytes] as [string]
    (a sequence of 8-bit characters), [int] as [Z], [Optional[T]] as
    [option T], a [StrEnum] as an inductive type with its [value] function,
    the ordered [dict] built by [prepared_dict] as an association list in
    insertion order, a parsed JSON object as a [gmap string json], and an
    exception as the [Raise] outcome of a state-and-exception monad whose
    state holds the objects, the log, the network trace and the files. *)

From Stdlib Require Import ZArith Ascii String.
From stdpp Require Import base functions gmap strings list pretty.

Set Warnings "-register-all".
Open Scope Z_scope.

(** ** Python strings and exceptions *)

(** [s[1:]]: the string without its first character; the empty string is
    left as it is. *)
Definition slice_from_1 (s : string) : string :=
  match s with
  | EmptyString => EmptyString
  | String _ rest => rest
  end.

(** [s.startswith(c)] for a one-character [c]. *)
Definition startswith_char (c : ascii) (s : string) : bool :=
  match s with
  | String c' _ => bool_decide (c' = c)
  | EmptyString => false
  end.

(** [s.endswith(c)] for a one-character [c]. *)
Fixpoint endswith_char (c : ascii) (s : string) : bool :=
  match s with
  | EmptyString => false
  | String c' EmptyString => bool_decide (c' = c)
  | String _ rest => endswith_char c rest
  end.

(** [needle in haystack] on strings (substring test). *)
Fixpoint str_contains (needle haystack : string) : bool :=
  String.prefix needle haystack
  || match haystack with
     | EmptyString => false
     | String _ rest => str_contains needle rest
     end.

(** An exception object: its class name and [str(e)]. *)
Record exn := Exn { exn_class : string; exn_str : string }.

(** The outcome of a Python expression: a value, or a raised exception. *)
Inductive Result (A : Type) : Type :=
  | Ok (a : A)
  | Raise (e : exn).
Arguments Ok {A} a.
Arguments Raise {A} e.

Definition is_raise {A} (r : Result A) : bool :=
  match r with Raise _ => true | Ok _ => false end.

(** The next expression is evaluated with the value of the first, unless
    the first raised. *)
Definition and_then {A B} (r : Result A) (k : A -> Result B) : Result B :=
  match r with
  | Ok a => k a
  | Raise e => Raise e
  end.

(** The interpreter's limit on the conversion of an [int] to text: the
    default of [sys.get_int_max_str_digits()]. *)
Definition int_max_str_digits : Z := 4300.

Definition exceeds_the_limit : exn :=
  Exn "ValueError"
    "Exceeds the limit (4300 digits) for integer string conversion; use sys.set_int_max_str_digits() to increase the limit".

(** [str(z)], also [f"{z}"], for an [int]: its decimal text; an integer
    of more digits than the limit, the sign not counted, raises. *)
Definition str_int (z : Z) : Result string :=
  if 10 ^ int_max_str_digits <=? Z.abs z then Raise exceeds_the_limit
  else Ok (pretty z).

(** ** [ResourceRequestParams] *)

Module ResourceRequestParams.

(** [class SortOptions(StrEnum)] *)
Module SortOptions.
Inductive t := CREATED | MODIFIED | NAME | PATH | SIZE.

Definition value (o : t) : string :=
  match o with
  | CREATED => "created"
  | MODIFIED => "modified"
  | NAME => "name"
  | PATH => "path"
  | SIZE => "size"
  end.

(** The [desc] property: [f"-{self}"]. *)
Definition desc (o : t) : string := "-" +:+ value o.
End SortOptions.

(** [class PreviewSizeOptions(StrEnum)] *)
Module PreviewSizeOptions.
Inductive t := S | M | L | XL | XXL | XXXL.

Definition value (o : t) : string :=
  match o with
  | S => "S"
  | M => "M"
  | L => "L"
  | XL => "XL"
  | XXL => "XXL"
  | XXXL => "XXXL"
  end.

Definition invalid_input_format : exn :=
  Exn "ValueError"
    "Invalid input format, expected '<integer>, <integer>', '<integer>, None', or 'None, <integer>'".

(** The static method [resolution(width, height)]: the [match] on the
    pair, case by case; the f-string formats the width before the
    height. *)
Definition resolution (width height : option Z) : Result string :=
  match width, height with
  | Some w, Some h =>
      and_then (str_int w) (fun w =>
      and_then (str_int h) (fun h => Ok (w +:+ "x" +:+ h)))
  | Some w, None => and_then (str_int w) (fun w => Ok (w +:+ "x"))
  | None, Some h => and_then (str_int h) (fun h => Ok ("x" +:+ h))
  | None, None => Raise invalid_input_format
  end.
End PreviewSizeOptions.

(** [class FieldOptions(StrEnum)]: as in the class body, the value of a
    later member is built from the values of earlier ones. *)
Module FieldOptions.
Inductive t :=
  (* Resource options *)
  | ANTIVIRUS_STATUS | COMMENT_IDS | CREATED | CUSTOM_PROPERTIES
  | EMBEDDED | EXIF | FILE | MD5 | MEDIA_TYPE | MIME_TYPE | MODIFIED
  | NAME | ORIGIN_PATH | OWNER | PATH | PREVIEW | PUBLIC_KEY
  | PUBLIC_URL | RESOURCE_ID | REVISION | SHA256 | SIZE | SIZES | TYPE
  | VIEWS_COUNT
  (* Embedded items options *)
  | EMBEDDED_ITEMS | EMBEDDED_LIMIT | EMBEDDED_OFFSET | EMBEDDED_PATH
  | EMBEDDED_PUBLIC_KEY | EMBEDDED_SORT | EMBEDDED_TOTAL
  (* Specific embedded items options *)
  | EMBEDDED_ITEMS_ANTIVIRUS_STATUS | EMBEDDED_ITEMS_COMMENT_IDS
  | EMBEDDED_ITEMS_CREATED | EMBEDDED_ITEMS_CUSTOM_PROPERTIES
  | EMBEDDED_ITEMS_EXIF | EMBEDDED_ITEMS_FILE | EMBEDDED_ITEMS_MD5
  | EMBEDDED_ITEMS_MEDIA_TYPE | EMBEDDED_ITEMS_MIME_TYPE
  | EMBEDDED_ITEMS_MODIFIED | EMBEDDED_ITEMS_NAME | EMBEDDED_ITEMS_PATH
  | EMBEDDED_ITEMS_PREVIEW | EMBEDDED_ITEMS_PUBLIC_KEY
  | EMBEDDED_ITEMS_PUBLIC_URL | EMBEDDED_ITEMS_RESOURCE_ID
  | EMBEDDED_ITEMS_REVISION | EMBEDDED_ITEMS_SHA256 | EMBEDDED_ITEMS_SIZE
  | EMBEDDED_ITEMS_SIZES | EMBEDDED_ITEMS_TYPE.

(** The values of the resource options. *)
Definition resource_value (f : t) : string :=
  match f with
  | ANTIVIRUS_STATUS => ".antivirus_status"
  | COMMENT_IDS => ".comment_ids"
  | CREATED => ".created"
  | CUSTOM_PROPERTIES => ".custom_properties"
  | EMBEDDED => "._embedded"
  | EXIF => ".exif"
  | FILE => ".file"
  | MD5 => ".md5"
  | MEDIA_TYPE => ".media_type"
  | MIME_TYPE => ".mime_type"
  | MODIFIED => ".modified"
  | NAME => ".name"
  | ORIGIN_PATH => ".origin_path"
  | OWNER => ".owner"
  | PATH => ".path"
  | PREVIEW => ".preview"
  | PUBLIC_KEY => ".public_key"
  | PUBLIC_URL => ".public_url"
  | RESOURCE_ID => ".resource_id"
  | REVISION => ".revision"
  | SHA256 => ".sha256"
  | SIZE => ".size"
  | SIZES => ".sizes"
  | TYPE => ".type"
  | VIEWS_COUNT => ".views_count"
  | _ => ""
  end.

(** The values of the embedded options, on top of [EMBEDDED]. *)
Definition embedded_value (f : t) : string :=
  match f with
  | EMBEDDED_ITEMS => resource_value EMBEDDED +:+ ".items"
  | EMBEDDED_LIMIT => resource_value EMBEDDED +:+ ".limit"
  | EMBEDDED_OFFSET => resource_value EMBEDDED +:+ ".offset"
  | EMBEDDED_PATH => resource_value EMBEDDED +:+ resource_value PATH
  | EMBEDDED_PUBLIC_KEY =>
      resource_value EMBEDDED +:+ resource_value PUBLIC_KEY
  | EMBEDDED_SORT => resource_value EMBEDDED +:+ ".sort"
  | EMBEDDED_TOTAL => resource_value EMBEDDED +:+ ".total"
  | _ => resource_value f
  end.

(** The member's string value. *)
Definition value (f : t) : string :=
  let items := embedded_value EMBEDDED_ITEMS in
  match f with
  | EMBEDDED_ITEMS_ANTIVIRUS_STATUS =>
      items +:+ resource_value ANTIVIRUS_STATUS
  | EMBEDDED_ITEMS_COMMENT_IDS => items +:+ resource_value COMMENT_IDS
  | EMBEDDED_ITEMS_CREATED => items +:+ resource_value CREATED
  | EMBEDDED_ITEMS_CUSTOM_PROPERTIES =>
      items +:+ resource_value CUSTOM_PROPERTIES
  | EMBEDDED_ITEMS_EXIF => items +:+ resource_value EXIF
  | EMBEDDED_ITEMS_FILE => items +:+ resource_value FILE
  | EMBEDDED_ITEMS_MD5 => items +:+ resource_value MD5
  | EMBEDDED_ITEMS_MEDIA_TYPE => items +:+ resource_value MEDIA_TYPE
  | EMBEDDED_ITEMS_MIME_TYPE => items +:+ resource_value MIME_TYPE
  | EMBEDDED_ITEMS_MODIFIED => items +:+ resource_value MODIFIED
  | EMBEDDED_ITEMS_NAME => items +:+ resource_value NAME
  | EMBEDDED_ITEMS_PATH => items +:+ resource_value PATH
  | EMBEDDED_ITEMS_PREVIEW => items +:+ resource_value PREVIEW
  | EMBEDDED_ITEMS_PUBLIC_KEY => items +:+ resource_value PUBLIC_KEY
  | EMBEDDED_ITEMS_PUBLIC_URL => items +:+ resource_value PUBLIC_URL
  | EMBEDDED_ITEMS_RESOURCE_ID => items +:+ resource_value RESOURCE_ID
  | EMBEDDED_ITEMS_REVISION => items +:+ resource_value REVISION
  | EMBEDDED_ITEMS_SHA256 => items +:+ resource_value SHA256
  | EMBEDDED_ITEMS_SIZE => items +:+ resource_value SIZE
  | EMBEDDED_ITEMS_SIZES => items +:+ resource_value SIZES
  | EMBEDDED_ITEMS_TYPE => items +:+ resource_value TYPE
  | _ => embedded_value f
  end.
(** The member's name. *)
Definition name (f : t) : string :=
  match f with
  | ANTIVIRUS_STATUS => "ANTIVIRUS_STATUS"
  | COMMENT_IDS => "COMMENT_IDS"
  | CREATED => "CREATED"
  | CUSTOM_PROPERTIES => "CUSTOM_PROPERTIES"
  | EMBEDDED => "EMBEDDED"
  | EXIF => "EXIF"
  | FILE => "FILE"
  | MD5 => "MD5"
  | MEDIA_TYPE => "MEDIA_TYPE"
  | MIME_TYPE => "MIME_TYPE"
  | MODIFIED => "MODIFIED"
  | NAME => "NAME"
  | ORIGIN_PATH => "ORIGIN_PATH"
  | OWNER => "OWNER"
  | PATH => "PATH"
  | PREVIEW => "PREVIEW"
  | PUBLIC_KEY => "PUBLIC_KEY"
  | PUBLIC_URL => "PUBLIC_URL"
  | RESOURCE_ID => "RESOURCE_ID"
  | REVISION => "REVISION"
  | SHA256 => "SHA256"
  | SIZE => "SIZE"
  | SIZES => "SIZES"
  | TYPE => "TYPE"
  | VIEWS_COUNT => "VIEWS_COUNT"
  | EMBEDDED_ITEMS => "EMBEDDED_ITEMS"
  | EMBEDDED_LIMIT => "EMBEDDED_LIMIT"
  | EMBEDDED_OFFSET => "EMBEDDED_OFFSET"
  | EMBEDDED_PATH => "EMBEDDED_PATH"
  | EMBEDDED_PUBLIC_KEY => "EMBEDDED_PUBLIC_KEY"
  | EMBEDDED_SORT => "EMBEDDED_SORT"
  | EMBEDDED_TOTAL => "EMBEDDED_TOTAL"
  | EMBEDDED_ITEMS_ANTIVIRUS_STATUS => "EMBEDDED_ITEMS_ANTIVIRUS_STATUS"
  | EMBEDDED_ITEMS_COMMENT_IDS => "EMBEDDED_ITEMS_COMMENT_IDS"
  | EMBEDDED_ITEMS_CREATED => "EMBEDDED_ITEMS_CREATED"
  | EMBEDDED_ITEMS_CUSTOM_PROPERTIES => "EMBEDDED_ITEMS_CUSTOM_PROPERTIES"
  | EMBEDDED_ITEMS_EXIF => "EMBEDDED_ITEMS_EXIF"
  | EMBEDDED_ITEMS_FILE => "EMBEDDED_ITEMS_FILE"
  | EMBEDDED_ITEMS_MD5 => "EMBEDDED_ITEMS_MD5"
  | EMBEDDED_ITEMS_MEDIA_TYPE => "EMBEDDED_ITEMS_MEDIA_TYPE"
  | EMBEDDED_ITEMS_MIME_TYPE => "EMBEDDED_ITEMS_MIME_TYPE"
  | EMBEDDED_ITEMS_MODIFIED => "EMBEDDED_ITEMS_MODIFIED"
  | EMBEDDED_ITEMS_NAME => "EMBEDDED_ITEMS_NAME"
  | EMBEDDED_ITEMS_PATH => "EMBEDDED_ITEMS_PATH"
  | EMBEDDED_ITEMS_PREVIEW => "EMBEDDED_ITEMS_PREVIEW"
  | EMBEDDED_ITEMS_PUBLIC_KEY => "EMBEDDED_ITEMS_PUBLIC_KEY"
  | EMBEDDED_ITEMS_PUBLIC_URL => "EMBEDDED_ITEMS_PUBLIC_URL"
  | EMBEDDED_ITEMS_RESOURCE_ID => "EMBEDDED_ITEMS_RESOURCE_ID"
  | EMBEDDED_ITEMS_REVISION => "EMBEDDED_ITEMS_REVISION"
  | EMBEDDED_ITEMS_SHA256 => "EMBEDDED_ITEMS_SHA256"
  | EMBEDDED_ITEMS_SIZE => "EMBEDDED_ITEMS_SIZE"
  | EMBEDDED_ITEMS_SIZES => "EMBEDDED_ITEMS_SIZES"
  | EMBEDDED_ITEMS_TYPE => "EMBEDDED_ITEMS_TYPE"
  end.
End FieldOptions.

(** [FieldsType = Union[FieldOptions, tuple[FieldOptions, ...]]] *)
Inductive FieldsType :=
  | Single (f : FieldOptions.t)
  | Tuple (fs : list FieldOptions.t).

(** A value of the mapping [FilteredDictType]. *)
Inductive Value :=
  | VStr (s : string)
  | VInt (z : Z)
  | VBool (b : bool)
  | VFields (f : FieldsType)
  | VSort (o : SortOptions.t)
  | VPreviewSize (o : PreviewSizeOptions.t).

(** The dataclass fields. [sort] also takes the plain string that
    [SortOptions.desc] returns, and [preview_size] the plain string that
    [PreviewSizeOptions.resolution] returns. *)
Record t := Build {
  public_key : string;
  fields : option FieldsType;
  limit : option Z;
  offset : option Z;
  path : option string;
  preview_crop : option bool;
  preview_size : option (PreviewSizeOptions.t + string);
  sort : option (SortOptions.t + string);
}.

Definition limit_default : Z := 1000000000000000000.

(** [ResourceRequestParams(public_key=...)]: every other field at its
    declared default. *)
Definition init (public_key : string) : t :=
  {| public_key := public_key;
     fields := None;
     limit := Some limit_default;
     offset := None;
     path := None;
     preview_crop := None;
     preview_size := None;
     sort := None |}.

(** [params.fields = v] *)
Definition set_fields (v : option FieldsType) (p : t) : t :=
  {| public_key := public_key p;
     fields := v;
     limit := limit p;
     offset := offset p;
     path := path p;
     preview_crop := preview_crop p;
     preview_size := preview_size p;
     sort := sort p |}.

Definition of_preview_size (v : PreviewSizeOptions.t + string) : Value :=
  match v with inl o => VPreviewSize o | inr s => VStr s end.

Definition of_sort (v : SortOptions.t + string) : Value :=
  match v with inl o => VSort o | inr s => VStr s end.

(** [dataclasses.asdict(self)]: the fields in declaration order, a
    [None] field as [None]. *)
Definition asdict (p : t) : list (string * option Value) :=
  [ ("public_key", Some (VStr (public_key p)));
    ("fields", VFields <$> fields p);
    ("limit", VInt <$> limit p);
    ("offset", VInt <$> offset p);
    ("path", VStr <$> path p);
    ("preview_crop", VBool <$> preview_crop p);
    ("preview_size", of_preview_size <$> preview_size p);
    ("sort", of_sort <$> sort p) ].

(** [d[k]] as a lookup, and [d[k] = v] on an insertion-ordered dict: an
    existing key keeps its place. *)
Fixpoint dict_get {V} (k : string) (d : list (string * V)) : option V :=
  match d with
  | [] => None
  | (k', v) :: d' => if decide (k' = k) then Some v else dict_get k d'
  end.

Fixpoint dict_set {V} (k : string) (v : V) (d : list (string * V))
  : list (string * V) :=
  match d with
  | [] => [(k, v)]
  | (k', v') :: d' =>
      if decide (k' = k) then (k, v) :: d' else (k', v') :: dict_set k v d'
  end.

(** [{k: v for k, v in d.items() if v is not None}] *)
Definition drop_none {V} (d : list (string * option V))
  : list (string * V) :=
  omap (fun kv => match kv.2 with
                  | Some v => Some (kv.1, v)
                  | None => None
                  end) d.

(** The [prepared_dict] property. *)
Definition prepared_dict (p : t) : list (string * Value) :=
  let result := drop_none (asdict p) in
  match fields p with
  | Some (Tuple fs) =>
      dict_set "fields"
        (VStr (String.concat ","
                 (map (fun field => slice_from_1 (FieldOptions.value field))
                      fs)))
        result
  | _ => result
  end.

(** The text of a value that is a [str]; a [StrEnum] member is one,
    with its [value] as text. *)
Definition as_str (v : Value) : option string :=
  match v with
  | VStr s => Some s
  | VFields (Single f) => Some (FieldOptions.value f)
  | VSort o => Some (SortOptions.value o)
  | VPreviewSize o => Some (PreviewSizeOptions.value o)
  | VFields (Tuple _) | VInt _ | VBool _ => None
  end.

End ResourceRequestParams.

(** ** The environment of [ResourceOperations] *)

(** A parsed JSON document ([response.json()]). *)
Inductive json :=
  | JNull
  | JBool (b : bool)
  | JInt (z : Z)
  | JFloat (literal : string)
  | JStr (s : string)
  | JArr (l : list json)
  | JObj (m : gmap string json).

(** A [requests.Response]: what [.json()] gives and the body [.content]. *)
Record Response := {
  response_json : Result json;
  content : string;
}.

(** What the client takes from outside the module: the three [urllib.parse]
    functions it calls, its two settings, and the outside world, namely the
    answer of [requests.get] to a URL (given the requests made so far) and
    the outcome of each file-system call (given the files present). *)
Record Env := {
  quote : string -> string;
  urlencode : list (string * ResourceRequestParams.Value) -> string;
  urljoin : string -> string -> string;
  YANDEX_DISK_PUBLIC_RESOURCES_BASE_URL : string;
  BASE_DIR : string;
  http_get : list string -> string -> Result Response;
  (* the exception [requests.get] raises for an argument that is not a
     string: no request is sent *)
  http_bad_url : json -> exn;
  (* [Path(dir).mkdir(parents=True, exist_ok=True)]: [Some e] when it
     raises *)
  fs_mkdir : gmap string string -> string -> option exn;
  (* [open(path, "wb")]: [Some e] when it raises *)
  fs_open_wb : gmap string string -> string -> option exn;
  (* [f.write(content)] and the closing of the file: [Some (e, written)]
     when it raises, [written] being what reached the file *)
  fs_write : gmap string string -> string -> string -> option (exn * string);
}.

Inductive level := INFO | ERROR.

(** A reference to a [ResourceRequestParams] object. *)
Definition loc := nat.

(** The state the client reads and changes: the parameter objects by
    reference, the records emitted to the logger, the URLs passed to
    [requests.get] so far, and the files on disk by path. A file is named
    by the path it was opened with: two spellings of one file are two
    keys. *)
Record State := {
  heap : loc -> ResourceRequestParams.t;
  log : list (level * string);
  net : list string;
  files : gmap string string;
}.

Definition set_heap (h : loc -> ResourceRequestParams.t) (s : State) : State :=
  {| heap := h; log := log s; net := net s; files := files s |}.
Definition set_log (l : list (level * string)) (s : State) : State :=
  {| heap := heap s; log := l; net := net s; files := files s |}.
Definition set_net (n : list string) (s : State) : State :=
  {| heap := heap s; log := log s; net := n; files := files s |}.
Definition set_files (f : gmap string string) (s : State) : State :=
  {| heap := heap s; log := log s; net := net s; files := f |}.

(** The messages logged at level [ERROR], oldest first. *)
Definition errors (s : State) : list string :=
  omap (fun r => match r.1 with ERROR => Some r.2 | INFO => None end) (log s).

(** ** The state-and-exception monad *)

Definition M (A : Type) : Type := State -> Result A * State.

Definition ret {A} (a : A) : M A := fun s => (Ok a, s).

Definition bind {A B} (m : M A) (k : A -> M B) : M B :=
  fun s =>
    match m s with
    | (Ok a, s') => k a s'
    | (Raise e, s') => (Raise e, s')
    end.

(** An expression that only computes: its exception, if any, is raised in
    the current state. *)
Definition lift {A} (r : Result A) : M A := fun s => (r, s).

Definition raise {A} (e : exn) : M A := lift (Raise e).

(** [try: body  except Exception as e: handler(e)] *)
Definition try_except {A} (body : M A) (handler : exn -> M A) : M A :=
  fun s =>
    match body s with
    | (Ok a, s') => (Ok a, s')
    | (Raise e, s') => handler e s'
    end.

Declare Scope py_scope.
Delimit Scope py_scope with py.
Notation "x <- m ;; k" := (bind m (fun x => k))
  (at level 100, m at next level, right associativity) : py_scope.
Notation "m ;;; k" := (bind m (fun _ => k))
  (at level 100, right associativity) : py_scope.
Open Scope py_scope.

(** [for x in l: body(x)] *)
Fixpoint for_each {A} (body : A -> M unit) (l : list A) : M unit :=
  match l with
  | [] => ret tt
  | x :: l' => body x ;;; for_each body l'
  end.

Definition get_state : M State := fun s => (Ok s, s).
Definition modify (f : State -> State) : M unit := fun s => (Ok tt, f s).

(** ** Library calls *)

(** [os.path.join(a, b)] on POSIX. *)
Definition os_path_join (a b : string) : string :=
  if startswith_char "/" b then b
  else if bool_decide (a = "") || endswith_char "/" a then a +:+ b
  else a +:+ "/" +:+ b.

(** [s.replace(" ", "+")] *)
Fixpoint replace_space_plus (s : string) : string :=
  match s with
  | EmptyString => EmptyString
  | String c rest =>
      String (if bool_decide (c = " "%char) then "+"%char else c)
             (replace_space_plus rest)
  end.

(** [j[k]] for a string [k]. *)
Definition getitem (k : string) (j : json) : Result json :=
  match j with
  | JObj m =>
      match m !! k with
      | Some v => Ok v
      | None => Raise (Exn "KeyError" ("'" +:+ k +:+ "'"))
      end
  | JArr _ =>
      Raise (Exn "TypeError" "list indices must be integers or slices, not str")
  | JStr _ => Raise (Exn "TypeError" "string indices must be integers, not 'str'")
  | JNull => Raise (Exn "TypeError" "'NoneType' object is not subscriptable")
  | JBool _ => Raise (Exn "TypeError" "'bool' object is not subscriptable")
  | JInt _ => Raise (Exn "TypeError" "'int' object is not subscriptable")
  | JFloat _ => Raise (Exn "TypeError" "'float' object is not subscriptable")
  end.

Definition is_JStr (k : string) (j : json) : bool :=
  match j with
  | JStr s => bool_decide (s = k)
  | _ => false
  end.

(** [k in j] for a string [k]. *)
Definition contains (k : string) (j : json) : Result bool :=
  match j with
  | JObj m => Ok (bool_decide (is_Some (m !! k)))
  | JArr l => Ok (existsb (is_JStr k) l)
  | JStr s => Ok (str_contains k s)
  | JNull => Raise (Exn "TypeError" "argument of type 'NoneType' is not iterable")
  | JBool _ => Raise (Exn "TypeError" "argument of type 'bool' is not iterable")
  | JInt _ => Raise (Exn "TypeError" "argument of type 'int' is not iterable")
  | JFloat _ => Raise (Exn "TypeError" "argument of type 'float' is not iterable")
  end.

Definition no_attribute (ty attr : string) : exn :=
  Exn "AttributeError"
      ("'" +:+ ty +:+ "' object has no attribute '" +:+ attr +:+ "'").

(** [j.pop(k)] for a string [k]: the value popped and [j] afterwards. *)
Definition pop (k : string) (j : json) : Result (json * json) :=
  match j with
  | JObj m =>
      match m !! k with
      | Some v => Ok (v, JObj (delete k m))
      | None => Raise (Exn "KeyError" ("'" +:+ k +:+ "'"))
      end
  | JArr _ =>
      Raise (Exn "TypeError" "'str' object cannot be interpreted as an integer")
  | JStr _ => Raise (no_attribute "str" "pop")
  | JNull => Raise (no_attribute "NoneType" "pop")
  | JBool _ => Raise (no_attribute "bool" "pop")
  | JInt _ => Raise (no_attribute "int" "pop")
  | JFloat _ => Raise (no_attribute "float" "pop")
  end.

Definition no_item_assignment (ty : string) : exn :=
  Exn "TypeError" ("'" +:+ ty +:+ "' object does not support item assignment").

(** [j[k] = v] for a string [k]: [j] afterwards. *)
Definition setitem (k : string) (v : json) (j : json) : Result json :=
  match j with
  | JObj m => Ok (JObj (<[k := v]> m))
  | JArr _ =>
      Raise (Exn "TypeError" "list indices must be integers or slices, not str")
  | JStr _ => Raise (no_item_assignment "str")
  | JNull => Raise (no_item_assignment "NoneType")
  | JBool _ => Raise (no_item_assignment "bool")
  | JInt _ => Raise (no_item_assignment "int")
  | JFloat _ => Raise (no_item_assignment "float")
  end.

(** ** [urllib.parse]: quoting and [urlencode]

    The functions as the standard library defines them, on text as its
    UTF-8 bytes. *)

Module urllib.
Import ResourceRequestParams.

(** The characters never quoted: letters, digits and [_.-~]. *)
Definition always_safe (c : ascii) : bool :=
  let n := N_of_ascii c in
  ((65 <=? n) && (n <=? 90) || (97 <=? n) && (n <=? 122)
   || (48 <=? n) && (n <=? 57)
   || bool_decide (c = "_"%char) || bool_decide (c = "."%char)
   || bool_decide (c = "-"%char) || bool_decide (c = "~"%char))%N.

Definition hex_digit (n : N) : ascii :=
  match n with
  | 0 => "0" | 1 => "1" | 2 => "2" | 3 => "3" | 4 => "4" | 5 => "5"
  | 6 => "6" | 7 => "7" | 8 => "8" | 9 => "9" | 10 => "A" | 11 => "B"
  | 12 => "C" | 13 => "D" | 14 => "E" | _ => "F"
  end%char%N.

(** [%XX] for a byte. *)
Definition percent (c : ascii) : string :=
  let n := N_of_ascii c in
  String "%" (String (hex_digit (n / 16)) (String (hex_digit (n mod 16)) "")).

(** [quote_from_bytes(bs, safe)] *)
Fixpoint quote_from_bytes (safe : ascii -> bool) (bs : string) : string :=
  match bs with
  | EmptyString => EmptyString
  | String c rest =>
      (if always_safe c || safe c then String c "" else percent c)
      +:+ quote_from_bytes safe rest
  end.

(** [quote(string)], with its default [safe='/']. *)
Definition quote (text : string) : string :=
  quote_from_bytes (fun c => bool_decide (c = "/"%char)) text.

(** [quote_plus(string)], with its default [safe='']. *)
Definition quote_plus (text : string) : string :=
  if str_contains " " text
  then replace_space_plus
         (quote_from_bytes (fun c => bool_decide (c = " "%char)) text)
  else quote_from_bytes (fun _ => false) text.

(** [repr] of a tuple of selectors. *)
Definition repr_member (f : FieldOptions.t) : string :=
  "<FieldOptions." +:+ FieldOptions.name f +:+ ": '"
  +:+ FieldOptions.value f +:+ "'>".

Definition repr_tuple (fs : list FieldOptions.t) : string :=
  match fs with
  | [f] => "(" +:+ repr_member f +:+ ",)"
  | _ => "(" +:+ String.concat ", " (map repr_member fs) +:+ ")"
  end.

(** [str(v)] for a value of the prepared mapping. *)
Definition str (v : Value) : Result string :=
  match v with
  | VStr s => Ok s
  | VInt z => str_int z
  | VBool b => Ok (if b then "True" else "False")
  | VFields (Single f) => Ok (FieldOptions.value f)
  | VFields (Tuple fs) => Ok (repr_tuple fs)
  | VSort o => Ok (SortOptions.value o)
  | VPreviewSize o => Ok (PreviewSizeOptions.value o)
  end.

(** The list [l] that [urlencode] builds, one [key=value] per entry. *)
Fixpoint urlencode_parts (query : list (string * Value))
  : Result (list string) :=
  match query with
  | [] => Ok []
  | (k, v) :: query =>
      and_then (str v) (fun v =>
      and_then (urlencode_parts query) (fun l =>
      Ok ((quote_plus k +:+ "=" +:+ quote_plus v) :: l)))
  end.

(** [urlencode(query)] for a mapping. *)
Definition urlencode (query : list (string * Value)) : Result string :=
  and_then (urlencode_parts query) (fun l => Ok (String.concat "&" l)).

End urllib.

(** The environment's [urlencode] is the standard library's: where that
    one returns, it returns the same text. *)
Definition standard_urlencode (E : Env) : Prop :=
  forall query text,
    urllib.urlencode query = Ok text -> urlencode E query = text.

(** ** [ResourceOperations] *)

Section ResourceOperations.
Context (E : Env).
Import ResourceRequestParams.

Definition PROJECT_DIR : string := os_path_join (BASE_DIR E) "..".
Definition FILES_DIR : string := os_path_join PROJECT_DIR "files".

(** *** Effects *)

Definition logger_info (msg : string) : M unit :=
  modify (fun s => set_log (log s ++ [(INFO, msg)]) s).

Definition logger_error (msg : string) : M unit :=
  modify (fun s => set_log (log s ++ [(ERROR, msg)]) s).

(** [params.<field>] and [params.fields = v] through the reference. *)
Definition load (params : loc) : M ResourceRequestParams.t :=
  fun s => (Ok (heap s params), s).

Definition store_fields (params : loc) (v : option FieldsType) : M unit :=
  modify (fun s =>
    set_heap (<[params := set_fields v (heap s params)]> (heap s)) s).

(** [requests.get(url)]: the URL joins the trace whether or not the
    call raises. *)
Definition requests_get (url : string) : M Response :=
  fun s => (http_get E (net s) url, set_net (net s ++ [url]) s).

(** [requests.get(u)] for a value taken out of a JSON document. *)
Definition requests_get_json (u : json) : M Response :=
  match u with
  | JStr url => requests_get url
  | _ => raise (http_bad_url E u)
  end.

Definition path_mkdir (dir : string) : M unit :=
  fun s =>
    match fs_mkdir E (files s) dir with
    | None => (Ok tt, s)
    | Some e => (Raise e, s)
    end.

(** [open(path, "wb")] creates the file or truncates it. *)
Definition open_wb (path : string) : M unit :=
  fun s =>
    match fs_open_wb E (files s) path with
    | None => (Ok tt, set_files (<[path := ""]> (files s)) s)
    | Some e => (Raise e, s)
    end.

Definition file_write (path content : string) : M unit :=
  fun s =>
    match fs_write E (files s) path content with
    | None => (Ok tt, set_files (<[path := content]> (files s)) s)
    | Some (e, written) =>
        (Raise e, set_files (<[path := written]> (files s)) s)
    end.

(** *** [get_public_resource_dict] *)

Definition default_fields : list FieldOptions.t :=
  [ FieldOptions.NAME;
    FieldOptions.PUBLIC_URL;
    FieldOptions.EMBEDDED_ITEMS_NAME;
    FieldOptions.EMBEDDED_ITEMS_TYPE;
    FieldOptions.EMBEDDED_ITEMS_MEDIA_TYPE;
    FieldOptions.EMBEDDED_ITEMS_PUBLIC_URL;
    FieldOptions.PATH ].

(** The URL the listing is fetched from, for the parameters [p]. *)
Definition listing_url (p : ResourceRequestParams.t) : string :=
  let query_params := urlencode E (prepared_dict p) in
  urljoin E (YANDEX_DISK_PUBLIC_RESOURCES_BASE_URL E) ("?" +:+ query_params).

Definition get_public_resource_dict (params : loc) : M json :=
  p <- load params ;;
  match fields p with
  | None => store_fields params (Some (Tuple default_fields))
  | Some _ => ret tt
  end ;;;
  p <- load params ;;
  let full_url := listing_url p in
  logger_info ("Full URL for fetching public resource: " +:+ full_url) ;;;
  response <- requests_get full_url ;;
  data_json <- lift (response_json response) ;;
  logger_info "Successfully fetched public resource data." ;;;
  found <- lift (contains "_embedded" data_json) ;;
  if found : bool then
    popped <- lift (pop "_embedded" data_json) ;;
    data_json <- lift (setitem "embedded" popped.1 popped.2) ;;
    logger_info "Renamed '_embedded' to 'embedded' in response data." ;;;
    ret data_json
  else ret data_json.

(** *** [download_files] *)

(** The URL the download link of [file_path] is asked from. *)
Definition download_url (new_public_key file_path : string) : string :=
  urljoin E
    (urljoin E (YANDEX_DISK_PUBLIC_RESOURCES_BASE_URL E) "download")
    ("?public_key=" +:+ new_public_key +:+ "&path=" +:+ quote E file_path).

Definition file_local_path (file_path : string) : string :=
  os_path_join FILES_DIR (slice_from_1 file_path).

(** The body of the [try]. *)
Definition fetch_and_write (response : Response) (file_path : string)
  : M unit :=
  data <- lift (response_json response) ;;
  href <- lift (getitem "href" data) ;;
  response_content <- requests_get_json href ;;
  path_mkdir FILES_DIR ;;;
  open_wb (file_local_path file_path) ;;;
  file_write (file_local_path file_path)
             (content response_content) ;;;
  logger_info ("INFO: File downloaded successfully: "
               +:+ file_local_path file_path).

(** The body of the [for] loop. *)
Definition download_file (new_public_key file_path : string) : M unit :=
  let full_url := download_url new_public_key file_path in
  logger_info ("Full URL for downloading file: " +:+ full_url) ;;;
  response <- requests_get full_url ;;
  try_except
    (fetch_and_write response file_path)
    (fun e =>
       logger_error ("Failed to download file " +:+ file_path +:+ ": "
                     +:+ exn_str e)).

Definition download_files (public_key : string) (files_paths : list string)
  : M unit :=
  let new_public_key := quote E (replace_space_plus public_key) in
  for_each (download_file new_public_key) files_paths.

End ResourceOperations.

Arguments FILES_DIR : simpl never.
Arguments file_local_path : simpl never.
Arguments download_url : simpl never.
Arguments listing_url : simpl never.

(** ** The views that call the client: [disk_api/v1/views/main.py]

    Of the framework the views need little: the two query dictionaries of
    the request, the context the parent view prepares, the address
    [reverse("files_list")] resolves to and the text of a list of strings
    in a log line; these are arguments. *)

Module Views.
Import ResourceRequestParams.

(** An [HttpRequest]: its [GET] and [POST] dictionaries, a key holding the
    list of the values given for it. *)
Record HttpRequest := {
  GET : gmap string (list string);
  POST : gmap string (list string);
}.

(** [QueryDict.get(key, default)]: the last value given for the key. *)
Definition get (q : gmap string (list string)) (key default : string)
  : string :=
  match q !! key with
  | Some values =>
      match last values with
      | Some value => value
      | None => default
      end
  | None => default
  end.

(** [QueryDict.getlist(key)] *)
Definition getlist (q : gmap string (list string)) (key : string)
  : list string :=
  match q !! key with
  | Some values => values
  | None => []
  end.

Section Views.
Context (E : Env).

(** [params = ResourceRequestParams(public_key=...)]: the new object,
    behind the reference [params] it is given. *)
Definition new_params (params : loc) (public_key : string) : M unit :=
  modify (fun s => set_heap (<[params := init public_key]> (heap s)) s).

(** [FileListView.get_context_data]; [context] is what
    the parent's [get_context_data] returns, [of_json] the inclusion
    of the listing among the values of a context. *)
Definition get_context_data {A} (of_json : json -> A)
    (context : gmap string A) (request : HttpRequest) (params : loc)
  : M (gmap string A) :=
  let public_url := get (GET request) "public_url" "" in
  logger_info ("Got the public URL from request: " +:+ public_url) ;;;
  new_params params public_url ;;;
  data_dict <-
    try_except
      (data_dict <- get_public_resource_dict E params ;;
       logger_info "Resource data received" ;;;
       ret data_dict)
      (fun e =>
         logger_error ("Error while retrieving resource data: "
                       +:+ exn_str e) ;;;
         raise e) ;;
  ret (<["data" := of_json data_dict]> context).

(** [DownloadFilesView.post] up to its [return]: the value is the address
    [redirect_to] that [post_response] below hands to [redirect].
    [files_list] is [reverse("files_list")] and [repr] the text of a list
    in an f-string. *)
Definition post (files_list : string) (repr : list string -> string)
    (request : HttpRequest) : M string :=
  let public_key := get (GET request) "public_key" "" in
  let selected_files := getlist (POST request) "selected_files" in
  logger_info ("Uploading files. Public key: " +:+ public_key
               +:+ ", Selected files: " +:+ repr selected_files) ;;;
  try_except
    (download_files E public_key selected_files ;;;
     logger_info "Files uploaded successfully")
    (fun e =>
       logger_error ("Error while downloading files: " +:+ exn_str e) ;;;
       raise e) ;;;
  let redirect_to :=
    urljoin E files_list
      ("?public_url=" +:+ get (GET request) "public_url" "") in
  logger_info ("Redirect to: " +:+ redirect_to) ;;;
  ret redirect_to.

(** The view as a whole: [return redirect(redirect_to)]. What [redirect]
    makes of the address is the framework's affair: it returns a response
    or raises (an address it does not allow). *)
Definition post_response {R} (redirect : string -> Result R)
    (files_list : string) (repr : list string -> string)
    (request : HttpRequest) : M R :=
  redirect_to <- post files_list repr request ;;
  lift (redirect redirect_to).

End Views.
End Views.

(** ** Concrete environments

    Small worlds on which the client can be run: a table of URLs with
    their answers, every other URL failing at the transport level, and a
    file system on which every call succeeds. *)

Module Scenario.
Import ResourceRequestParams.

Definition connection_error : exn :=
  Exn "ConnectionError" "Failed to establish a new connection".

Definition json_decode_error : exn :=
  Exn "JSONDecodeError" "Expecting value: line 1 column 1 (char 0)".

Definition missing_schema : exn :=
  Exn "MissingSchema" "Invalid URL: No scheme supplied".

(** An environment answering from [table]. [quote] and [urlencode] are
    the standard library's (a query that does not encode is not requested
    with, its text is of no account); on the strings used below (a base
    URL ending in a slash and without a query) [urljoin] is
    concatenation. *)
Definition env (table : list (string * Result Response)) : Env :=
  {| quote := urllib.quote;
     urlencode := fun query =>
       match urllib.urlencode query with
       | Ok text => text
       | Raise _ => ""
       end;
     urljoin := fun base url => base +:+ url;
     YANDEX_DISK_PUBLIC_RESOURCES_BASE_URL :=
       "https://cloud-api.yandex.net/v1/disk/public/resources/";
     BASE_DIR := "/srv/yandex_disk_project";
     http_get := fun _ url =>
       default (Raise connection_error) (dict_get url table);
     http_bad_url := fun _ => missing_schema;
     fs_mkdir := fun _ _ => None;
     fs_open_wb := fun _ _ => None;
     fs_write := fun _ _ _ => None |}.

(** The answer of the download endpoint: a document with the link. *)
Definition link (href : string) : Result Response :=
  Ok {| response_json := Ok (JObj {[ "href" := JStr href ]});
        content := "" |}.

(** The answer of a storage link: the bytes of the file. *)
Definition body (bytes : string) : Result Response :=
  Ok {| response_json := Raise json_decode_error; content := bytes |}.

Definition download_endpoint (path : string) : string :=
  "https://cloud-api.yandex.net/v1/disk/public/resources/download?public_key=k&path="
  +:+ path.

(** Three files, all of them served. *)
Definition all_served : Env :=
  env [ (download_endpoint "/A", link "https://dl/A");
        ("https://dl/A", body "aaa");
        (download_endpoint "/B", link "https://dl/B");
        ("https://dl/B", body "bbb");
        (download_endpoint "/C", link "https://dl/C");
        ("https://dl/C", body "ccc");
        (download_endpoint "a.txt", link "https://dl/a.txt");
        ("https://dl/a.txt", body "text") ].

(** The same, except that the storage link of B cannot be reached. *)
Definition content_of_B_unreachable : Env :=
  env [ (download_endpoint "/A", link "https://dl/A");
        ("https://dl/A", body "aaa");
        (download_endpoint "/B", link "https://dl/B");
        (download_endpoint "/C", link "https://dl/C");
        ("https://dl/C", body "ccc") ].

(** The same, except that the download endpoint cannot be reached for
    B. *)
Definition link_of_B_unreachable : Env :=
  env [ (download_endpoint "/A", link "https://dl/A");
        ("https://dl/A", body "aaa");
        ("https://dl/B", body "bbb");
        (download_endpoint "/C", link "https://dl/C");
        ("https://dl/C", body "ccc") ].

(** A listing with two children, and the world serving it whatever the
    query. *)
Definition listing : gmap string json :=
  {[ "name" := JStr "docs";
     "_embedded" := JObj {[ "items" := JArr [JStr "a"; JStr "b"] ]};
     "embedded" := JStr "stale" ]}.

Definition serving (doc : json) : Env :=
  {| quote := quote all_served;
     urlencode := urlencode all_served;
     urljoin := urljoin all_served;
     YANDEX_DISK_PUBLIC_RESOURCES_BASE_URL :=
       YANDEX_DISK_PUBLIC_RESOURCES_BASE_URL all_served;
     BASE_DIR := BASE_DIR all_served;
     http_get := fun _ _ =>
       Ok {| response_json := Ok doc; content := "" |};
     http_bad_url := http_bad_url all_served;
     fs_mkdir := fs_mkdir all_served;
     fs_open_wb := fs_open_wb all_served;
     fs_write := fs_write all_served |}.

(** An initial state: every reference denotes the parameters built from
    the key ["k"] alone, nothing logged, requested or stored yet. *)
Definition start : State :=
  {| heap := fun _ => init "k"; log := []; net := []; files := ∅ |}.
End Scenario.


(** * Properties *)

Import ResourceRequestParams.

(** ** The parameter model *)

Lemma dict_get_set_eq {V} (k : string) (v : V) d :
  dict_get k (dict_set k v d) = Some v.
Proof.
  induction d as [|[k' v'] d IH]; simpl.
  - by rewrite decide_True.
  - destruct (decide (k' = k)) as [->|Hne]; simpl.
    + by rewrite decide_True.
    + by rewrite decide_False.
Qed.

Lemma dict_get_set_ne {V} (k k' : string) (v : V) d :
  k <> k' -> dict_get k' (dict_set k v d) = dict_get k' d.
Proof.
  intros Hne. induction d as [|[k0 v0] d IH]; simpl.
  - by rewrite decide_False.
  - destruct (decide (k0 = k)) as [->|Hk0]; simpl.
    + by rewrite !decide_False.
    + by rewrite IH.
Qed.

(** Every selector's value begins with the separator. *)
Lemma value_leading_separator (f : FieldOptions.t) :
  FieldOptions.value f = String "." (slice_from_1 (FieldOptions.value f)).
Proof. by destruct f. Qed.

(** What [prepared_dict] holds under ["fields"], by the shape of the
    attribute. *)
Lemma prepared_dict_fields (p : ResourceRequestParams.t) :
  dict_get "fields" (prepared_dict p) =
    match fields p with
    | None => None
    | Some (Single f) => Some (VFields (Single f))
    | Some (Tuple fs) =>
        Some (VStr (String.concat ","
                      (map (fun f => slice_from_1 (FieldOptions.value f)) fs)))
    end.
Proof.
  unfold prepared_dict.
  destruct (fields p) as [[f|fs]|] eqn:Hf.
  - unfold asdict. by rewrite Hf.
  - by rewrite dict_get_set_eq.
  - unfold asdict. rewrite Hf. simpl.
    by destruct (limit p), (offset p), (path p), (preview_crop p),
      (preview_size p), (sort p).
Qed.

(** An integer within the limit is formatted as its decimal text. *)
Lemma str_int_Ok (z : Z) (text : string) :
  str_int z = Ok text -> text = pretty z /\ Z.abs z < 10 ^ int_max_str_digits.
Proof.
  unfold str_int.
  destruct (Z.leb_spec (10 ^ int_max_str_digits) (Z.abs z)); [done|].
  intros [= <-]. done.
Qed.

Lemma str_int_Raise (z : Z) (e : exn) :
  str_int z = Raise e ->
  e = exceeds_the_limit /\ 10 ^ int_max_str_digits <= Z.abs z.
Proof.
  unfold str_int.
  destruct (Z.leb_spec (10 ^ int_max_str_digits) (Z.abs z)); [|done].
  intros [= <-]. done.
Qed.

Lemma str_int_cases (z : Z) :
  (str_int z = Ok (pretty z) /\ Z.abs z < 10 ^ int_max_str_digits)
  \/ (str_int z = Raise exceeds_the_limit
      /\ 10 ^ int_max_str_digits <= Z.abs z).
Proof.
  unfold str_int.
  destruct (Z.leb_spec (10 ^ int_max_str_digits) (Z.abs z)); [by right|by left].
Qed.

(** C4 (as the code has it): [resolution] gives ["100x"], ["x200"] and
    ["100x200"] on the three documented inputs; on [(None, None)] it
    raises the [ValueError] of its last case. Besides that it raises
    exactly when the width or the height it is given has more decimal
    digits than the interpreter converts to text (4300), and then too the
    exception is a [ValueError]; it raises in no other case. Being a
    computation on its arguments alone, it leaves the network trace (and
    the whole state) as it was. *)
Theorem resolution_cases :
  PreviewSizeOptions.resolution (Some 100) None = Ok "100x"
  /\ PreviewSizeOptions.resolution None (Some 200) = Ok "x200"
  /\ PreviewSizeOptions.resolution (Some 100) (Some 200) = Ok "100x200"
  /\ PreviewSizeOptions.resolution None None
     = Raise PreviewSizeOptions.invalid_input_format
  /\ exn_class PreviewSizeOptions.invalid_input_format = "ValueError"
  /\ (forall width height,
        is_raise (PreviewSizeOptions.resolution width height) = true
        <-> (width = None /\ height = None)
            \/ (exists w, width = Some w
                          /\ 10 ^ int_max_str_digits <= Z.abs w)
            \/ (exists h, height = Some h
                          /\ 10 ^ int_max_str_digits <= Z.abs h))
  /\ (forall width height e,
        PreviewSizeOptions.resolution width height = Raise e ->
        exn_class e = "ValueError")
  /\ (forall s, lift (PreviewSizeOptions.resolution None None) s
                = (Raise PreviewSizeOptions.invalid_input_format, s)).
Proof.
  split; [by vm_compute|]. split; [by vm_compute|]. split; [by vm_compute|].
  split; [done|]. split; [done|]. split; [|split; [|done]].
  - intros width height. unfold PreviewSizeOptions.resolution, and_then.
    destruct width as [w|], height as [h|].
    + destruct (str_int_cases w) as [[-> Hw]|[-> Hw]];
        [destruct (str_int_cases h) as [[-> Hh]|[-> Hh]]|]; simpl.
      * split; [done|]. intros [[? _]|[(w' & [= <-] & ?)|(h' & [= <-] & ?)]];
          [done|lia|lia].
      * split; [|done]. intros _. right. right. by exists h.
      * split; [|done]. intros _. right. left. by exists w.
    + destruct (str_int_cases w) as [[-> Hw]|[-> Hw]]; simpl.
      * split; [done|]. intros [[? _]|[(w' & [= <-] & ?)|(h' & ? & ?)]];
          [done|lia|done].
      * split; [|done]. intros _. right. left. by exists w.
    + destruct (str_int_cases h) as [[-> Hh]|[-> Hh]]; simpl.
      * split; [done|]. intros [[_ ?]|[(w' & ? & ?)|(h' & [= <-] & ?)]];
          [done|done|lia].
      * split; [|done]. intros _. right. right. by exists h.
    + split; [|done]. intros _. by left.
  - intros width height e. unfold PreviewSizeOptions.resolution, and_then.
    destruct width as [w|], height as [h|].
    + destruct (str_int_cases w) as [[-> _]|[-> _]];
        [destruct (str_int_cases h) as [[-> _]|[-> _]]|]; by intros [= <-].
    + destruct (str_int_cases w) as [[-> _]|[-> _]]; by intros [= <-].
    + destruct (str_int_cases h) as [[-> _]|[-> _]]; by intros [= <-].
    + by intros [= <-].
Qed.

(** C4 as stated fails: [resolution(10**4300, None)] is given an integer
    and raises, the width having 4301 digits. *)
Lemma resolution_raises_on_long_integer :
  ~ (is_raise (PreviewSizeOptions.resolution (Some (10 ^ 4300)) None) = true
     <-> Some (10 ^ 4300) = (None : option Z) /\ (None : option Z) = None).
Proof.
  intros [H _]. assert (Some (10 ^ 4300) = (None : option Z)) as [=].
  apply H. by vm_compute.
Qed.

(** The keys of the optional fields other than [limit]. *)
Definition unset_by_default : list string :=
  ["fields"; "offset"; "path"; "preview_crop"; "preview_size"; "sort"].

(** C2 (as the code has it): the parameters built from a public key alone
    prepare to exactly two entries, the key and the default [limit] of
    10^18; none of [fields], [offset], [path], [preview_crop],
    [preview_size], [sort] is present. *)
Theorem prepared_dict_public_key_only (public_key : string) :
  prepared_dict (init public_key)
  = [("public_key", VStr public_key); ("limit", VInt (10 ^ 18))]
  /\ dict_get "public_key" (prepared_dict (init public_key))
     = Some (VStr public_key)
  /\ dict_get "limit" (prepared_dict (init public_key)) = Some (VInt (10 ^ 18))
  /\ Forall (fun k => dict_get k (prepared_dict (init public_key)) = None)
            unset_by_default.
Proof.
  split; [reflexivity|]. split; [reflexivity|]. split; [reflexivity|].
  unfold unset_by_default. repeat constructor.
Qed.

(** C2 as stated fails: with only the public key set, [limit] is one of
    the optional keys and it is in the prepared mapping. *)
Lemma prepared_dict_public_key_only_keeps_limit :
  ~ Forall (fun k => dict_get k (prepared_dict (init "k")) = None)
           ("limit" :: unset_by_default).
Proof. intros H. by inversion H. Qed.

(** C6: when [fields] is a tuple (non-empty, or empty), the prepared ["fields"] entry
    is a string: the comma-joined list, in the order of the tuple, of one
    part per selector, the part being the selector's value without its
    leading ['.']. *)
Theorem prepared_dict_fields_tuple (p : ResourceRequestParams.t)
    (fs : list FieldOptions.t) :
  fields p = Some (Tuple fs) ->
  exists parts,
    Forall2 (fun f part => FieldOptions.value f = String "." part) fs parts
    /\ (dict_get "fields" (prepared_dict p) ≫= as_str)
       = Some (String.concat "," parts).
Proof.
  intros Hf.
  exists (map (fun f => slice_from_1 (FieldOptions.value f)) fs). split.
  - clear Hf. induction fs as [|f fs IH]; simpl; constructor; [|done].
    apply value_leading_separator.
  - by rewrite prepared_dict_fields, Hf.
Qed.

Lemma prepared_dict_fields_tuple_witness :
  exists parts,
    Forall2 (fun f part => FieldOptions.value f = String "." part)
      [FieldOptions.NAME; FieldOptions.EMBEDDED_ITEMS_TYPE; FieldOptions.PATH]
      parts
    /\ (dict_get "fields"
          (prepared_dict
             (set_fields
                (Some (Tuple [FieldOptions.NAME;
                              FieldOptions.EMBEDDED_ITEMS_TYPE;
                              FieldOptions.PATH]))
                (init "k"))) ≫= as_str)
       = Some (String.concat "," parts).
Proof.
  apply prepared_dict_fields_tuple. reflexivity.
Defined.

(** C9: when [fields] is a single selector, the prepared ["fields"] entry
    is that selector itself, so its text is the selector's value with the
    leading ['.'] still there; the one-element tuple of the same selector
    prepares to the value without it. *)
Theorem prepared_dict_fields_single (p : ResourceRequestParams.t)
    (f : FieldOptions.t) :
  fields p = Some (Single f) ->
  dict_get "fields" (prepared_dict p) = Some (VFields (Single f))
  /\ (dict_get "fields" (prepared_dict p) ≫= as_str)
     = Some (FieldOptions.value f)
  /\ startswith_char "." (FieldOptions.value f) = true
  /\ (dict_get "fields" (prepared_dict (set_fields (Some (Tuple [f])) p))
        ≫= as_str)
     = Some (slice_from_1 (FieldOptions.value f))
  /\ FieldOptions.value f <> slice_from_1 (FieldOptions.value f).
Proof.
  intros Hf. rewrite !prepared_dict_fields, Hf. simpl.
  repeat split; by destruct f.
Qed.

Lemma prepared_dict_fields_single_witness :
  dict_get "fields"
    (prepared_dict (set_fields (Some (Single FieldOptions.NAME)) (init "k")))
  = Some (VFields (Single FieldOptions.NAME)).
Proof.
  apply (prepared_dict_fields_single
           (set_fields (Some (Single FieldOptions.NAME)) (init "k"))
           FieldOptions.NAME).
  reflexivity.
Defined.

(** ** Fetching the listing *)

(** The parameters the listing is requested with: the caller's, with the
    default selectors when it gave none. *)
Definition requested_params (p : ResourceRequestParams.t)
  : ResourceRequestParams.t :=
  match fields p with
  | None => set_fields (Some (Tuple default_fields)) p
  | Some _ => p
  end.

(** The renaming of the embedded collection on a JSON object. *)
Definition renamed (m : gmap string json) : gmap string json :=
  match m !! "_embedded" with
  | Some v => <["embedded" := v]> (delete "_embedded" m)
  | None => m
  end.

Ltac run_listing :=
  unfold get_public_resource_dict, bind, load, store_fields, modify, ret,
    logger_info, requests_get, lift, requested_params;
  simpl.

(** The state a call leaves, whatever its outcome: one more request, the
    object behind the reference as requested, every other object and the
    files as before. *)
Lemma get_public_resource_dict_state (E : Env) (params : loc) (s : State) :
  let s' := (get_public_resource_dict E params s).2 in
  net s' = net s ++ [listing_url E (requested_params (heap s params))]
  /\ heap s' params = requested_params (heap s params)
  /\ (forall l, l <> params -> heap s' l = heap s l)
  /\ files s' = files s.
Proof.
  run_listing.
  destruct (fields (heap s params)) eqn:Hf; simpl;
    rewrite ?fn_lookup_insert;
    (destruct (http_get E _ _) as [r|e]; simpl;
     [destruct (response_json r) as [j|e]; simpl;
      [destruct (contains "_embedded" j) as [[|]|e]; simpl;
       [destruct (pop "_embedded" j) as [[v j']|e]; simpl;
        [destruct (setitem "embedded" v j') as [j''|e]; simpl|]| |]|]|]);
    repeat split; try done;
    try apply fn_lookup_insert; intros l Hl; by rewrite fn_lookup_insert_ne.
Qed.

(** The outcome of a call that is answered with a JSON object. *)
Lemma get_public_resource_dict_object (E : Env) (params : loc) (s : State)
    (r : Response) (m : gmap string json) :
  http_get E (net s) (listing_url E (requested_params (heap s params))) = Ok r ->
  response_json r = Ok (JObj m) ->
  (get_public_resource_dict E params s).1 = Ok (JObj (renamed m)).
Proof.
  intros Hget Hjson. revert Hget. run_listing. unfold renamed.
  destruct (fields (heap s params)) eqn:Hf; simpl;
    rewrite ?fn_lookup_insert; intros ->; simpl; rewrite Hjson; simpl;
    destruct (m !! "_embedded") as [v|] eqn:Hm; simpl;
    rewrite ?bool_decide_true, ?bool_decide_false by (by eauto || by intros [??]);
    simpl; by rewrite ?Hm.
Qed.








(** ** Downloading files *)

(** The loop over a list in two parts: the second part runs in the state
    the first part leaves, unless the first part raised. *)
Lemma for_each_app {A} (body : A -> M unit) (l1 l2 : list A) (s : State) :
  for_each body (l1 ++ l2) s
  = match for_each body l1 s with
    | (Ok _, s1) => for_each body l2 s1
    | (Raise e, s1) => (Raise e, s1)
    end.
Proof.
  revert s. induction l1 as [|x l1 IH]; intros s; simpl; [done|].
  unfold bind. destruct (body x s) as [[[]|e] s1]; [apply IH|done].
Qed.

Lemma errors_app (s : State) (records : list (level * string)) :
  errors (set_log (log s ++ records) s)
  = errors s
    ++ omap (fun r => match r.1 with ERROR => Some r.2 | INFO => None end)
         records.
Proof. unfold errors. simpl. apply omap_app. Qed.

(** The state in which the [try] of an iteration is entered. *)
Definition link_requested (E : Env) (new_public_key file_path : string)
    (s : State) : State :=
  set_net (net s ++ [download_url E new_public_key file_path])
    (set_log
       (log s ++ [(INFO, "Full URL for downloading file: "
                         +:+ download_url E new_public_key file_path)]) s).

(** An iteration whose download-link request raises: the exception leaves
    the iteration, nothing is written and no failure is logged. *)
Lemma download_file_link_raises (E : Env) (new_public_key file_path : string)
    (s : State) (e : exn) :
  http_get E (net s) (download_url E new_public_key file_path) = Raise e ->
  download_file E new_public_key file_path s
  = (Raise e, link_requested E new_public_key file_path s).
Proof.
  intros Hget. unfold download_file, bind, logger_info, modify, requests_get.
  simpl. by rewrite Hget.
Qed.

(** An iteration whose download-link request is answered: whatever
    happens in the [try], the iteration ends normally; a failure in the
    [try] logs one error, naming the file and the exception. *)
Lemma download_file_link_answered (E : Env)
    (new_public_key file_path : string) (s : State) (r : Response) :
  http_get E (net s) (download_url E new_public_key file_path) = Ok r ->
  let tried :=
    fetch_and_write E r file_path (link_requested E new_public_key file_path s) in
  download_file E new_public_key file_path s
  = match tried.1 with
    | Ok _ => (Ok tt, tried.2)
    | Raise e =>
        (Ok tt,
         set_log (log tried.2
                  ++ [(ERROR, "Failed to download file " +:+ file_path +:+ ": "
                              +:+ exn_str e)]) tried.2)
    end.
Proof.
  intros Hget. unfold download_file, bind, logger_info, modify, requests_get.
  simpl. rewrite Hget. unfold try_except. fold (link_requested E new_public_key file_path s).
  by destruct (fetch_and_write E r file_path _) as [[[]|e] s1].
Qed.

(** The [try] when nothing in it fails: the bytes fetched from the link
    are the content of the local file, and no error is logged. *)
Lemma fetch_and_write_succeeds (E : Env) (response : Response)
    (file_path : string) (s : State) (m : gmap string json) (href : string)
    (response_content : Response) :
  response_json response = Ok (JObj m) ->
  m !! "href" = Some (JStr href) ->
  http_get E (net s) href = Ok response_content ->
  fs_mkdir E (files s) (FILES_DIR E) = None ->
  fs_open_wb E (files s) (file_local_path E file_path) = None ->
  fs_write E (<[file_local_path E file_path := ""]> (files s))
    (file_local_path E file_path) (content response_content) = None ->
  let tried := fetch_and_write E response file_path s in
  tried.1 = Ok tt
  /\ files tried.2
     = <[file_local_path E file_path := content response_content]> (files s)
  /\ errors tried.2 = errors s
  /\ net tried.2 = net s ++ [href].
Proof.
  intros Hjson Hhref Hget Hmkdir Hopen Hwrite.
  unfold fetch_and_write, bind, lift, requests_get_json, requests_get,
    path_mkdir, open_wb, file_write, logger_info, modify.
  rewrite Hjson. simpl. rewrite Hhref, Hget. simpl.
  rewrite Hmkdir. simpl. rewrite Hopen. simpl. rewrite Hwrite. simpl.
  repeat split; try done.
  - apply insert_insert_eq.
  - unfold errors. simpl. rewrite omap_app. simpl. apply app_nil_r.
Qed.

Lemma append_cons (x : ascii) (a b : string) :
  String x a +:+ b = String x (a +:+ b).
Proof. reflexivity. Qed.

Lemma append_assoc (a b c : string) : (a +:+ b) +:+ c = a +:+ b +:+ c.
Proof.
  induction a as [|x a IH]; [done|]. by rewrite !append_cons, IH.
Qed.




(** *** Failures inside and outside the [try] *)

(** The [try] sends at most one request, never removes one from the
    trace, and logs no error itself. *)
Lemma fetch_and_write_frame (E : Env) (response : Response)
    (file_path : string) (s : State) :
  let tried := fetch_and_write E response file_path s in
  (exists more, net tried.2 = net s ++ more) /\ errors tried.2 = errors s.
Proof.
  unfold fetch_and_write, bind, lift, requests_get_json, requests_get,
    path_mkdir, open_wb, file_write, logger_info, modify, raise.
  destruct (response_json response) as [data|e]; simpl;
    [|by split; [exists []; rewrite app_nil_r|]].
  destruct (getitem "href" data) as [href|e]; simpl;
    [|by split; [exists []; rewrite app_nil_r|]].
  destruct href as [| | | |url| |]; simpl;
    try (by split; [exists []; rewrite app_nil_r|]).
  destruct (http_get E (net s) url) as [r|e]; simpl; [|by split; [eexists|]].
  destruct (fs_mkdir E (files s) (FILES_DIR E)); simpl; [by split; [eexists|]|].
  destruct (fs_open_wb E (files s) _); simpl; [by split; [eexists|]|].
  destruct (fs_write E _ _ _) as [[e written]|]; simpl;
    (split; [by eexists|]); [done|].
  unfold errors. simpl. rewrite omap_app. simpl. apply app_nil_r.
Qed.

(** X13: per-file isolation, for the failures the [try] covers: when the
    download-link request of every file of the list is answered, whatever
    else fails, the call ends normally, the link of every file has been
    requested, and at most one error per file has been logged. *)
Lemma download_files_isolated (E : Env) (public_key : string)
    (files_paths : list string) (s : State) :
  let new_public_key := quote E (replace_space_plus public_key) in
  (forall trace file_path,
     file_path ∈ files_paths ->
     is_raise (http_get E trace (download_url E new_public_key file_path))
     = false) ->
  let run := download_files E public_key files_paths s in
  run.1 = Ok tt
  /\ (exists more, net run.2 = net s ++ more)
  /\ (forall file_path,
        file_path ∈ files_paths ->
        download_url E new_public_key file_path ∈ net run.2)
  /\ (length (errors run.2) <= length (errors s) + length files_paths)%nat.
Proof.
  intros npk Hlinks. unfold download_files. fold npk.
  revert s. induction files_paths as [|p l IH]; intros s; simpl.
  - repeat split; [by exists []; rewrite app_nil_r| |lia].
    intros ? H. by apply elem_of_nil in H.
  - unfold bind.
    destruct (http_get E (net s) (download_url E npk p)) as [r|e] eqn:Hget.
    2:{ specialize (Hlinks (net s) p ltac:(left)). by rewrite Hget in Hlinks. }
    rewrite (download_file_link_answered _ _ _ _ _ Hget).
    destruct (fetch_and_write_frame E r p (link_requested E npk p s))
      as [[more Hmore] Herrs].
    set (tried := fetch_and_write E r p (link_requested E npk p s)) in *.
    assert (Hstep : exists s1,
      (match tried.1 with
       | Ok _ => (Ok tt, tried.2)
       | Raise e =>
           (Ok tt,
            set_log (log tried.2
                     ++ [(ERROR, "Failed to download file " +:+ p +:+ ": "
                                 +:+ exn_str e)]) tried.2)
       end) = (Ok tt, s1)
      /\ net s1 = net tried.2
      /\ (length (errors s1) <= S (length (errors tried.2)))%nat).
    { destruct tried.1; eexists; (split; [done|]); split; try done.
      - lia.
      - rewrite errors_app, length_app. simpl. lia. }
    destruct Hstep as (s1 & -> & Hnet1 & Herr1).
    destruct (IH (fun trace q Hq => Hlinks trace q ltac:(by right)) s1)
      as (Hok & [more' Hnet] & Hall & Herr).
    assert (Herrs0 : errors (link_requested E npk p s) = errors s).
    { unfold link_requested, errors. simpl. rewrite omap_app. simpl.
      apply app_nil_r. }
    split; [done|]. split; [|split].
    + exists ((download_url E npk p :: more) ++ more').
      rewrite Hnet, Hnet1, Hmore. simpl. by rewrite <- !app_assoc.
    + intros q Hq. rewrite Hnet, Hnet1, Hmore. simpl.
      apply elem_of_cons in Hq as [->|Hq].
      * rewrite !elem_of_app, list_elem_of_singleton. auto.
      * specialize (Hall q Hq). rewrite Hnet, Hnet1, Hmore in Hall.
        exact Hall.
    + rewrite Herrs, Herrs0 in Herr1. lia.
Qed.

(** X14: the failure the [try] does not cover: when the files before
    [file_path] have been processed and the download-link request of
    [file_path] raises, the exception leaves [download_files]; nothing is
    written or logged as failed for [file_path], and the files after it
    are not processed at all. *)
Lemma download_files_stops_at_unanswered_link (E : Env) (public_key : string)
    (before after : list string) (file_path : string) (s s1 : State)
    (e : exn) :
  let new_public_key := quote E (replace_space_plus public_key) in
  download_files E public_key before s = (Ok tt, s1) ->
  http_get E (net s1) (download_url E new_public_key file_path) = Raise e ->
  let run := download_files E public_key (before ++ file_path :: after) s in
  run = (Raise e, link_requested E new_public_key file_path s1)
  /\ files run.2 = files s1
  /\ errors run.2 = errors s1
  /\ net run.2 = net s1 ++ [download_url E new_public_key file_path].
Proof.
  intros npk Hbefore Hget run.
  assert (Hrun : run = (Raise e, link_requested E npk file_path s1)).
  { subst run. unfold download_files in *. fold npk in Hbefore |- *.
    rewrite for_each_app, Hbefore. simpl. unfold bind.
    by rewrite (download_file_link_raises _ _ _ _ _ Hget). }
  rewrite Hrun. repeat split.
  unfold errors. simpl. rewrite omap_app. simpl. apply app_nil_r.
Qed.

(** A failure inside the [try], on the batch A, B, C: the storage link of
    B cannot be reached. A and C are written, and there is one error, for
    B. *)
Example download_files_content_failure :
  let run :=
    download_files Scenario.content_of_B_unreachable "k" ["/A"; "/B"; "/C"]
      Scenario.start in
  run.1 = Ok tt
  /\ files run.2 !! "/srv/yandex_disk_project/../files/A" = Some "aaa"
  /\ files run.2 !! "/srv/yandex_disk_project/../files/B" = None
  /\ files run.2 !! "/srv/yandex_disk_project/../files/C" = Some "ccc"
  /\ errors run.2
     = ["Failed to download file /B: Failed to establish a new connection"].
Proof. vm_compute. repeat split. Qed.

(** C1, where the code departs from it: on the batch A, B, C, when the
    download-link request of B fails at the transport level, the exception
    leaves [download_files]. A has been written; C is neither requested
    nor written; no failure is logged. *)
Theorem download_files_link_failure :
  let run :=
    download_files Scenario.link_of_B_unreachable "k" ["/A"; "/B"; "/C"]
      Scenario.start in
  run.1 = Raise Scenario.connection_error
  /\ files run.2 !! "/srv/yandex_disk_project/../files/A" = Some "aaa"
  /\ files run.2 !! "/srv/yandex_disk_project/../files/C" = None
  /\ errors run.2 = []
  /\ net run.2
     = [ Scenario.download_endpoint "/A"; "https://dl/A";
         Scenario.download_endpoint "/B" ].
Proof. vm_compute. repeat split. Qed.

(** * Further properties *)

(** ** The option enumerations *)

(** The members of [FieldOptions], in the order of the class body. *)
Definition FieldOptions_members : list FieldOptions.t :=
  [ FieldOptions.ANTIVIRUS_STATUS; FieldOptions.COMMENT_IDS;
    FieldOptions.CREATED;
    FieldOptions.CUSTOM_PROPERTIES; FieldOptions.EMBEDDED; FieldOptions.EXIF;
    FieldOptions.FILE; FieldOptions.MD5; FieldOptions.MEDIA_TYPE;
    FieldOptions.MIME_TYPE; FieldOptions.MODIFIED; FieldOptions.NAME;
    FieldOptions.ORIGIN_PATH; FieldOptions.OWNER; FieldOptions.PATH;
    FieldOptions.PREVIEW; FieldOptions.PUBLIC_KEY; FieldOptions.PUBLIC_URL;
    FieldOptions.RESOURCE_ID; FieldOptions.REVISION; FieldOptions.SHA256;
    FieldOptions.SIZE; FieldOptions.SIZES; FieldOptions.TYPE;
    FieldOptions.VIEWS_COUNT;
    FieldOptions.EMBEDDED_ITEMS; FieldOptions.EMBEDDED_LIMIT;
    FieldOptions.EMBEDDED_OFFSET; FieldOptions.EMBEDDED_PATH;
    FieldOptions.EMBEDDED_PUBLIC_KEY; FieldOptions.EMBEDDED_SORT;
    FieldOptions.EMBEDDED_TOTAL;
    FieldOptions.EMBEDDED_ITEMS_ANTIVIRUS_STATUS;
    FieldOptions.EMBEDDED_ITEMS_COMMENT_IDS;
    FieldOptions.EMBEDDED_ITEMS_CREATED;
    FieldOptions.EMBEDDED_ITEMS_CUSTOM_PROPERTIES;
    FieldOptions.EMBEDDED_ITEMS_EXIF; FieldOptions.EMBEDDED_ITEMS_FILE;
    FieldOptions.EMBEDDED_ITEMS_MD5; FieldOptions.EMBEDDED_ITEMS_MEDIA_TYPE;
    FieldOptions.EMBEDDED_ITEMS_MIME_TYPE; FieldOptions.EMBEDDED_ITEMS_MODIFIED;
    FieldOptions.EMBEDDED_ITEMS_NAME; FieldOptions.EMBEDDED_ITEMS_PATH;
    FieldOptions.EMBEDDED_ITEMS_PREVIEW; FieldOptions.EMBEDDED_ITEMS_PUBLIC_KEY;
    FieldOptions.EMBEDDED_ITEMS_PUBLIC_URL;
    FieldOptions.EMBEDDED_ITEMS_RESOURCE_ID;
    FieldOptions.EMBEDDED_ITEMS_REVISION; FieldOptions.EMBEDDED_ITEMS_SHA256;
    FieldOptions.EMBEDDED_ITEMS_SIZE; FieldOptions.EMBEDDED_ITEMS_SIZES;
    FieldOptions.EMBEDDED_ITEMS_TYPE ].

(** [FieldOptions(text)]: the member with that value, the first one in
    the order of the class body. *)
Definition FieldOptions_of_value (text : string) : option FieldOptions.t :=
  find (fun f => bool_decide (FieldOptions.value f = text))
       FieldOptions_members.

Lemma FieldOptions_of_value_value (f : FieldOptions.t) :
  FieldOptions_of_value (FieldOptions.value f) = Some f.
Proof. destruct f; vm_compute; reflexivity. Qed.

(** X1: the three enumerations are [@unique], as their decorators demand:
    no two members of [FieldOptions], of [SortOptions] or of
    [PreviewSizeOptions] share a value. *)
Theorem enumeration_values_unique :
  Inj (=) (=) FieldOptions.value
  /\ Inj (=) (=) SortOptions.value
  /\ Inj (=) (=) PreviewSizeOptions.value.
Proof.
  split; [|split].
  - intros f g H. apply (f_equal FieldOptions_of_value) in H.
    rewrite !FieldOptions_of_value_value in H. by injection H.
  - intros f g H. destruct f, g; first [reflexivity | discriminate H].
  - intros f g H. destruct f, g; first [reflexivity | discriminate H].
Qed.

(** X2: a descending sort key is the ascending one behind a single
    ['-']: removing the first character of [desc] gives the value back, no
    value begins with ['-'] itself, so that no descending key is the
    ascending key of any option, and different options have different
    descending keys. *)
Theorem desc_single_minus (o o' : SortOptions.t) :
  SortOptions.desc o = String "-" (SortOptions.value o)
  /\ startswith_char "-" (SortOptions.value o) = false
  /\ SortOptions.desc o <> SortOptions.value o'
  /\ (SortOptions.desc o = SortOptions.desc o' <-> o = o').
Proof.
  repeat split.
  - by destruct o.
  - by destruct o, o'.
  - by destruct o, o'.
  - by intros ->.
Qed.

(** ** The custom resolution *)

(** No character of the decimal text of an integer is the letter [x], and
    the text is not empty. *)
Fixpoint no_x (s : string) : bool :=
  match s with
  | EmptyString => true
  | String c rest => negb (bool_decide (c = "x"%char)) && no_x rest
  end.

Lemma pretty_N_go_no_x (n : N) (s : string) :
  no_x s = true -> s <> "" \/ n <> 0%N ->
  no_x (pretty_N_go n s) = true /\ pretty_N_go n s <> "".
Proof.
  revert s. induction (N.lt_wf_0 n) as [n _ IH]; intros s Hs Hne.
  assert (n = 0 \/ 0 < n)%N as [->|Hpos] by lia.
  - rewrite pretty_N_go_0. split; [done|]. by destruct Hne.
  - rewrite pretty_N_go_step by done. apply IH.
    + by apply N.div_lt.
    + simpl. rewrite Hs. unfold pretty_N_char. by repeat case_match.
    + by left.
Qed.

Lemma pretty_Z_no_x (z : Z) : no_x (pretty z) = true /\ pretty z <> "".
Proof.
  destruct z as [|p|p]; unfold pretty, pretty_Z; [done| |].
  - unfold pretty, pretty_positive, pretty, pretty_N.
    rewrite decide_False by done.
    apply pretty_N_go_no_x; [done|by right].
  - unfold pretty, pretty_positive, pretty, pretty_N.
    rewrite decide_False by done.
    destruct (pretty_N_go_no_x (N.pos p) "") as [Hx _]; [done|by right|].
    by rewrite append_cons.
Qed.

(** A text is cut at its first [x] in one way only. *)
Lemma split_at_x (a a' b b' : string) :
  no_x a = true -> no_x a' = true ->
  a +:+ String "x" b = a' +:+ String "x" b' -> a = a' /\ b = b'.
Proof.
  revert a'. induction a as [|c a IH]; intros [|c' a'] Ha Ha' Heq.
  - by injection Heq.
  - rewrite append_cons in Heq. injection Heq as <- _.
    by vm_compute in Ha'.
  - rewrite append_cons in Heq. injection Heq as -> _.
    by vm_compute in Ha.
  - rewrite !append_cons in Heq. injection Heq as -> Heq.
    simpl in Ha, Ha'. apply andb_true_iff in Ha as [_ Ha].
    apply andb_true_iff in Ha' as [_ Ha'].
    destruct (IH a' Ha Ha' Heq) as [-> ->]. done.
Qed.

(** X3: the text [resolution] returns tells the width and the height
    apart: two calls that return the same text were given the same width
    and the same height. The text is never empty. *)
Theorem resolution_injective (width height width' height' : option Z)
    (text : string) :
  PreviewSizeOptions.resolution width height = Ok text ->
  PreviewSizeOptions.resolution width' height' = Ok text ->
  width = width' /\ height = height' /\ text <> "".
Proof.
  assert (Hcut : forall w h w' h' : option Z,
    default "" (pretty <$> w) +:+ String "x" (default "" (pretty <$> h))
    = default "" (pretty <$> w') +:+ String "x" (default "" (pretty <$> h')) ->
    w = w' /\ h = h').
  { intros w h w' h' Heq. apply split_at_x in Heq as [Hw Hh].
    - split.
      + destruct w as [w|], w' as [w'|]; simpl in Hw; try done.
        * by apply (inj pretty) in Hw as ->.
        * by destruct (pretty_Z_no_x w) as [_ []].
        * by destruct (pretty_Z_no_x w') as [_ []].
      + destruct h as [h|], h' as [h'|]; simpl in Hh; try done.
        * by apply (inj pretty) in Hh as ->.
        * by destruct (pretty_Z_no_x h) as [_ []].
        * by destruct (pretty_Z_no_x h') as [_ []].
    - destruct w; [apply pretty_Z_no_x|done].
    - destruct w'; [apply pretty_Z_no_x|done]. }
  assert (Hfmt : forall w h t,
    PreviewSizeOptions.resolution w h = Ok t ->
    t = default "" (pretty <$> w) +:+ String "x" (default "" (pretty <$> h))).
  { intros w h t. unfold PreviewSizeOptions.resolution, and_then.
    destruct w as [w|], h as [h|]; [ | | |done].
    - destruct (str_int_cases w) as [[-> _]|[-> _]]; [|done].
      destruct (str_int_cases h) as [[-> _]|[-> _]]; [|done].
      by intros [= <-].
    - destruct (str_int_cases w) as [[-> _]|[-> _]]; [|done].
      by intros [= <-].
    - destruct (str_int_cases h) as [[-> _]|[-> _]]; [|done].
      by intros [= <-]. }
  intros H H'.
  pose proof (Hfmt _ _ _ H) as Htext. pose proof (Hfmt _ _ _ H') as Htext'.
  destruct (Hcut width height width' height') as [-> ->]; [congruence|].
  split; [done|]. split; [done|].
  rewrite Htext'. by destruct (default "" (pretty <$> width')).
Qed.

Lemma resolution_injective_witness :
  Some 100 = Some 100 /\ (None : option Z) = None /\ "100x" <> "".
Proof.
  apply (resolution_injective (Some 100) None (Some 100) None "100x");
    by vm_compute.
Defined.

(** ** The prepared mapping *)

(** The key of a field, and its entry, when the field is set. *)
Definition key_if_set {A} (key : string) (field : option A) : list string :=
  match field with
  | Some _ => [key]
  | None => []
  end.

Definition entry_if_set {A} (key : string) (field : option A)
  : list (string * A) :=
  match field with
  | Some v => [(key, v)]
  | None => []
  end.

(** What [fields] is prepared to. *)
Definition prepared_fields (p : ResourceRequestParams.t) : option Value :=
  match fields p with
  | None => None
  | Some (Single f) => Some (VFields (Single f))
  | Some (Tuple fs) =>
      Some (VStr (String.concat ","
                    (map (fun f => slice_from_1 (FieldOptions.value f)) fs)))
  end.

(** The prepared mapping, entry by entry. *)
Lemma prepared_dict_entries (p : ResourceRequestParams.t) :
  prepared_dict p
  = ("public_key", VStr (public_key p))
    :: entry_if_set "fields" (prepared_fields p)
    ++ entry_if_set "limit" (VInt <$> limit p)
    ++ entry_if_set "offset" (VInt <$> offset p)
    ++ entry_if_set "path" (VStr <$> path p)
    ++ entry_if_set "preview_crop" (VBool <$> preview_crop p)
    ++ entry_if_set "preview_size" (of_preview_size <$> preview_size p)
    ++ entry_if_set "sort" (of_sort <$> sort p).
Proof.
  unfold prepared_dict, prepared_fields, asdict, drop_none.
  destruct (fields p) as [[f|fs]|], (limit p), (offset p), (path p),
    (preview_crop p), (preview_size p), (sort p); reflexivity.
Qed.

Lemma map_fst_entry_if_set {A B} (g : A -> B) (key : string)
    (field : option A) :
  map fst (entry_if_set key (g <$> field)) = key_if_set key field.
Proof. by destruct field. Qed.

Lemma key_if_set_sublist {A} (key : string) (field : option A) :
  key_if_set key field `sublist_of` [key].
Proof. destruct field; simpl; [done|]. apply sublist_nil_l. Qed.

(** X4: the keys of the prepared mapping are, in the order in which the
    dataclass declares its fields, [public_key] and then the key of every
    optional field that is not [None]; no key comes twice. Turning a tuple
    of selectors into text does not move the ["fields"] key. *)
Theorem prepared_dict_keys (p : ResourceRequestParams.t) :
  map fst (prepared_dict p)
  = "public_key"
    :: key_if_set "fields" (fields p) ++ key_if_set "limit" (limit p)
    ++ key_if_set "offset" (offset p) ++ key_if_set "path" (path p)
    ++ key_if_set "preview_crop" (preview_crop p)
    ++ key_if_set "preview_size" (preview_size p)
    ++ key_if_set "sort" (sort p)
  /\ NoDup (map fst (prepared_dict p)).
Proof.
  assert (Hkeys : map fst (prepared_dict p)
    = "public_key"
      :: key_if_set "fields" (fields p) ++ key_if_set "limit" (limit p)
      ++ key_if_set "offset" (offset p) ++ key_if_set "path" (path p)
      ++ key_if_set "preview_crop" (preview_crop p)
      ++ key_if_set "preview_size" (preview_size p)
      ++ key_if_set "sort" (sort p)).
  { rewrite prepared_dict_entries. simpl. rewrite !map_app.
    rewrite !map_fst_entry_if_set. do 2 f_equal.
    unfold prepared_fields. by destruct (fields p) as [[f|fs]|]. }
  split; [done|]. rewrite Hkeys.
  apply (sublist_NoDup _ ["public_key"; "fields"; "limit"; "offset"; "path";
                          "preview_crop"; "preview_size"; "sort"]).
  - apply (bool_decide_unpack _). by vm_compute.
  - apply sublist_skip.
    change (key_if_set "fields" (fields p) ++ key_if_set "limit" (limit p)
      ++ key_if_set "offset" (offset p) ++ key_if_set "path" (path p)
      ++ key_if_set "preview_crop" (preview_crop p)
      ++ key_if_set "preview_size" (preview_size p)
      ++ key_if_set "sort" (sort p)
      `sublist_of` ["fields"] ++ ["limit"] ++ ["offset"] ++ ["path"]
      ++ ["preview_crop"] ++ ["preview_size"] ++ ["sort"]).
    repeat (apply sublist_app; [apply key_if_set_sublist|]).
    apply key_if_set_sublist.
Qed.

(** X5: every field other than [fields] is prepared as it is: a field
    that is [None] has no entry (an explicit [limit=None] removes the
    limit from the query), a field that is set has its value as entry,
    and the public key is always there. *)
Theorem prepared_dict_passes_values (p : ResourceRequestParams.t) :
  dict_get "public_key" (prepared_dict p) = Some (VStr (public_key p))
  /\ dict_get "limit" (prepared_dict p) = VInt <$> limit p
  /\ dict_get "offset" (prepared_dict p) = VInt <$> offset p
  /\ dict_get "path" (prepared_dict p) = VStr <$> path p
  /\ dict_get "preview_crop" (prepared_dict p) = VBool <$> preview_crop p
  /\ dict_get "preview_size" (prepared_dict p)
     = of_preview_size <$> preview_size p
  /\ dict_get "sort" (prepared_dict p) = of_sort <$> sort p.
Proof.
  rewrite prepared_dict_entries.
  destruct (prepared_fields p), (limit p), (offset p), (path p),
    (preview_crop p), (preview_size p), (sort p); repeat split.
Qed.

(** X6: the prepared mapping never holds a tuple: whatever the
    parameters, no value of it is a tuple of selectors. *)
Theorem prepared_dict_no_tuple (p : ResourceRequestParams.t) :
  Forall (fun entry => forall fs, entry.2 <> VFields (Tuple fs))
         (prepared_dict p).
Proof.
  rewrite prepared_dict_entries. unfold prepared_fields.
  destruct (fields p) as [[f|fs]|], (limit p), (offset p), (path p),
    (preview_crop p), (preview_size p) as [[]|], (sort p) as [[]|]; simpl;
    repeat first [ apply Forall_nil_2
                 | apply Forall_cons_2; [intros fs0; discriminate|] ].
Qed.

(** ** Fetching the listing: failures and frame *)

(** Records at level [INFO] add no error. *)
Lemma omap_info (messages : list string) :
  omap (fun r : level * string =>
          match r.1 with ERROR => Some r.2 | INFO => None end)
       (map (fun m => (INFO, m)) messages)
  = [].
Proof. induction messages as [|m l IH]; [done|]. exact IH. Qed.

Lemma errors_app_info (s : State) (messages : list string) :
  omap (fun r : level * string =>
          match r.1 with ERROR => Some r.2 | INFO => None end)
       (log s ++ map (fun m => (INFO, m)) messages)
  = errors s.
Proof. rewrite omap_app, omap_info. apply app_nil_r. Qed.





(** X10: when the query of the parameters encodes (no [limit] or
    [offset] beyond the digits the interpreter converts), then whatever
    the answer and the outcome, a call sends exactly one request, logs no
    error record, writes no file, and logs between one and three
    records. *)
Theorem listing_frame (E : Env) (params : loc) (s : State) (query : string) :
  urllib.urlencode (prepared_dict (requested_params (heap s params)))
  = Ok query ->
  let s' := (get_public_resource_dict E params s).2 in
  length (net s') = S (length (net s))
  /\ errors s' = errors s
  /\ files s' = files s
  /\ exists messages,
       log s' = log s ++ map (fun m => (INFO, m)) messages
       /\ (1 <= length messages <= 3)%nat.
Proof.
  intros _ s'.
  destruct (get_public_resource_dict_state E params s) as (Hnet & _ & _ & Hfiles).
  fold s' in Hnet, Hfiles.
  split; [rewrite Hnet, length_app; simpl; lia|].
  assert (Hlog : exists messages,
    log s' = log s ++ map (fun m => (INFO, m)) messages
    /\ (1 <= length messages <= 3)%nat).
  { subst s'. run_listing.
    destruct (fields (heap s params)) eqn:Hf; simpl;
      rewrite ?fn_lookup_insert;
      (destruct (http_get E _ _) as [r|e]; simpl;
       [destruct (response_json r) as [j|e]; simpl;
        [destruct (contains "_embedded" j) as [[|]|e]; simpl;
         [destruct (pop "_embedded" j) as [[v j']|e]; simpl;
          [destruct (setitem "embedded" v j') as [j''|e]; simpl|]| |]|]|]);
      rewrite <- ?app_assoc; simpl;
      first [ eexists [_]; split; [reflexivity|simpl; lia]
            | eexists [_; _]; split; [reflexivity|simpl; lia]
            | eexists [_; _; _]; split; [reflexivity|simpl; lia] ]. }
  destruct Hlog as (messages & Hlog & Hlen).
  split; [|split; [done|by exists messages]].
  unfold errors. rewrite Hlog. apply errors_app_info.
Qed.





(** ** Downloading files: the iteration *)

Lemma download_files_isolated_witness :
  (download_files Scenario.content_of_B_unreachable "k" ["/A"; "/B"; "/C"]
     Scenario.start).1 = Ok tt.
Proof.
  apply (download_files_isolated Scenario.content_of_B_unreachable "k"
           ["/A"; "/B"; "/C"] Scenario.start).
  intros trace file_path Hin.
  repeat (apply elem_of_cons in Hin as [->|Hin]; [reflexivity|]).
  by apply elem_of_nil in Hin.
Defined.

Lemma download_files_stops_at_unanswered_link_witness :
  (download_files Scenario.link_of_B_unreachable "k"
     (["/A"] ++ "/B" :: ["/C"]) Scenario.start).1
  = Raise Scenario.connection_error.
Proof.
  destruct (download_files_stops_at_unanswered_link
              Scenario.link_of_B_unreachable "k" ["/A"] ["/C"] "/B"
              Scenario.start
              (download_files Scenario.link_of_B_unreachable "k" ["/A"]
                 Scenario.start).2
              Scenario.connection_error eq_refl eq_refl) as [Hrun _].
  by rewrite Hrun.
Defined.

(** The state the files before [file_path] leave, and the iteration for
    [file_path] when its download link is answered. *)
Lemma download_files_snoc (E : Env) (public_key : string)
    (before : list string) (file_path : string) (s s1 : State)
    (response : Response) :
  let new_public_key := quote E (replace_space_plus public_key) in
  download_files E public_key before s = (Ok tt, s1) ->
  http_get E (net s1) (download_url E new_public_key file_path) = Ok response ->
  let tried :=
    fetch_and_write E response file_path
      (link_requested E new_public_key file_path s1) in
  download_files E public_key (before ++ [file_path]) s
  = match tried.1 with
    | Ok _ => (Ok tt, tried.2)
    | Raise e =>
        (Ok tt,
         set_log (log tried.2
                  ++ [(ERROR, "Failed to download file " +:+ file_path +:+ ": "
                              +:+ exn_str e)]) tried.2)
    end.
Proof.
  intros npk Hbefore Hlink tried. unfold download_files in *.
  fold npk in Hbefore |- *. rewrite for_each_app, Hbefore. simpl.
  unfold bind at 1. rewrite (download_file_link_answered _ _ _ _ _ Hlink).
  fold tried. by destruct tried.1.
Qed.

(** X15: when the answer of the download endpoint is an object without
    ["href"], the iteration sends no second request and writes nothing; it
    logs the one error ["Failed to download file <path>: 'href'"] and the
    call goes on normally. *)
Theorem download_files_missing_href (E : Env) (public_key : string)
    (before : list string) (file_path : string) (s s1 : State)
    (response : Response) (m : gmap string json) :
  let url := download_url E (quote E (replace_space_plus public_key)) file_path in
  download_files E public_key before s = (Ok tt, s1) ->
  http_get E (net s1) url = Ok response ->
  response_json response = Ok (JObj m) ->
  m !! "href" = None ->
  exists s2,
    download_files E public_key (before ++ [file_path]) s = (Ok tt, s2)
    /\ net s2 = net s1 ++ [url]
    /\ files s2 = files s1
    /\ errors s2
       = errors s1 ++ ["Failed to download file " +:+ file_path +:+ ": 'href'"].
Proof.
  intros url Hbefore Hlink Hjson Hhref.
  rewrite (download_files_snoc _ _ _ _ _ _ _ Hbefore Hlink).
  unfold fetch_and_write, bind, lift. rewrite Hjson. simpl. rewrite Hhref.
  simpl. eexists. split; [done|]. repeat split.
  unfold errors. simpl. rewrite !omap_app. simpl. by rewrite app_nil_r.
Qed.

Lemma download_files_missing_href_witness :
  exists s2,
    download_files
      (Scenario.env
         [ (Scenario.download_endpoint "/A",
            Ok {| response_json := Ok (JObj {[ "error" := JStr "DiskNotFoundError" ]});
                  content := "" |}) ])
      "k" ([] ++ ["/A"]) Scenario.start = (Ok tt, s2)
    /\ errors s2 = [] ++ ["Failed to download file /A: 'href'"].
Proof.
  destruct (download_files_missing_href
              (Scenario.env
                 [ (Scenario.download_endpoint "/A",
                    Ok {| response_json :=
                            Ok (JObj {[ "error" := JStr "DiskNotFoundError" ]});
                          content := "" |}) ])
              "k" [] "/A" Scenario.start Scenario.start
              {| response_json :=
                   Ok (JObj {[ "error" := JStr "DiskNotFoundError" ]});
                 content := "" |}
              {[ "error" := JStr "DiskNotFoundError" ]}
              eq_refl eq_refl eq_refl ltac:(by vm_compute))
    as (s2 & Hrun & _ & _ & Herr).
  by exists s2.
Defined.

(** ** Downloading files: what a call leaves alone *)

(** One iteration, whatever happens in it: the parameter objects are not
    touched, no file but the local file of the path is touched, one or two
    requests are sent, and one or two records are logged, two when the
    iteration ends normally. *)
Lemma download_file_step (E : Env) (new_public_key file_path : string)
    (s : State) :
  let run := download_file E new_public_key file_path s in
  heap run.2 = heap s
  /\ (forall q, q <> file_local_path E file_path ->
        files run.2 !! q = files s !! q)
  /\ (length (net s) < length (net run.2) <= length (net s) + 2)%nat
  /\ (length (log s) < length (log run.2) <= length (log s) + 2)%nat
  /\ (run.1 = Ok tt -> length (log run.2) = (length (log s) + 2)%nat).
Proof.
  unfold download_file, try_except, fetch_and_write, bind, lift,
    requests_get_json, requests_get, path_mkdir, open_wb, file_write,
    logger_info, logger_error, modify, raise.
  simpl.
  destruct (http_get E (net s) _) as [r|e]; simpl.
  2:{ rewrite !length_app. simpl. repeat split; try done; lia. }
  destruct (response_json r) as [data|e]; simpl.
  2:{ rewrite !length_app. simpl. repeat split; try done; lia. }
  destruct (getitem "href" data) as [href|e]; simpl.
  2:{ rewrite !length_app. simpl. repeat split; try done; lia. }
  destruct href as [| | | |url| |]; simpl;
    try (rewrite !length_app; simpl; repeat split; try done; lia).
  destruct (http_get E _ url) as [r2|e]; simpl.
  2:{ rewrite !length_app. simpl. repeat split; try done; lia. }
  destruct (fs_mkdir E (files s) (FILES_DIR E)); simpl.
  { rewrite !length_app. simpl. repeat split; try done; lia. }
  destruct (fs_open_wb E (files s) _); simpl.
  { rewrite !length_app. simpl. repeat split; try done; lia. }
  destruct (fs_write E _ _ _) as [[e written]|]; simpl;
    rewrite !length_app; simpl; repeat split; try done; try lia;
    intros q Hq; by rewrite !lookup_insert_ne.
Qed.

(** X17: a call sends at least one and at most two requests per path it
    processes, hence at most twice as many as it is given paths, and logs
    at most two records per path: no request is repeated. When the call
    ends normally every path has been requested and has left exactly two
    records. *)
Theorem download_files_budget (E : Env) (public_key : string)
    (files_paths : list string) (s : State) :
  let run := download_files E public_key files_paths s in
  (length (net run.2) <= length (net s) + 2 * length files_paths)%nat
  /\ (length (log run.2) <= length (log s) + 2 * length files_paths)%nat
  /\ (run.1 = Ok tt ->
        (length (net s) + length files_paths <= length (net run.2))%nat
        /\ length (log run.2) = (length (log s) + 2 * length files_paths)%nat).
Proof.
  unfold download_files. generalize (quote E (replace_space_plus public_key)).
  intros npk. revert s.
  induction files_paths as [|p l IH]; intros s; simpl.
  - repeat split; lia.
  - destruct (download_file_step E npk p s) as (_ & _ & Hnet & Hlog & Hok).
    unfold bind.
    destruct (download_file E npk p s) as [[[]|e] s1]; simpl in *.
    + destruct (IH s1) as (Hn & Hl & Hrun). split; [lia|]. split; [lia|].
      intros Hr. destruct (Hrun Hr) as [Hn' Hl']. specialize (Hok eq_refl).
      lia.
    + split; [lia|]. split; [lia|]. done.
Qed.

(** ** Downloading files: where the bytes go *)

(** A path whose second character is a separator: what remains after the
    first character is absolute, and the join drops the files directory. *)
Lemma file_local_path_absolute (E : Env) (c : ascii) (rest : string) :
  file_local_path E (String c (String "/" rest)) = String "/" rest.
Proof. reflexivity. Qed.

(** X18: the local file is not always under the files directory: for a
    path whose second character is ['/'] (such as ["//tmp/x"]), what is
    left after dropping the first character is an absolute path, and when
    nothing fails the bytes are written to that path itself, the files
    directory playing no part. *)
Theorem download_files_outside_files_dir (E : Env) (public_key : string)
    (before : list string) (c : ascii) (rest : string) (s s1 : State)
    (response : Response) (m : gmap string json) (href : string)
    (response_content : Response) :
  let file_path := String c (String "/" rest) in
  let url := download_url E (quote E (replace_space_plus public_key)) file_path in
  download_files E public_key before s = (Ok tt, s1) ->
  http_get E (net s1) url = Ok response ->
  response_json response = Ok (JObj m) ->
  m !! "href" = Some (JStr href) ->
  http_get E (net s1 ++ [url]) href = Ok response_content ->
  fs_mkdir E (files s1) (FILES_DIR E) = None ->
  fs_open_wb E (files s1) (String "/" rest) = None ->
  fs_write E (<[String "/" rest := ""]> (files s1)) (String "/" rest)
    (content response_content) = None ->
  exists s2,
    download_files E public_key (before ++ [file_path]) s = (Ok tt, s2)
    /\ files s2 = <[String "/" rest := content response_content]> (files s1)
    /\ errors s2 = errors s1.
Proof.
  intros file_path url Hbefore Hlink Hjson Hhref Hget Hmkdir Hopen Hwrite.
  rewrite (download_files_snoc _ _ _ _ _ _ _ Hbefore Hlink).
  destruct (fetch_and_write_succeeds E response file_path
              (link_requested E (quote E (replace_space_plus public_key))
                 file_path s1)
              m href response_content Hjson Hhref Hget Hmkdir Hopen Hwrite)
    as (Hok & Hfiles & Herrors & _).
  rewrite Hok. eexists. split; [done|]. split; [exact Hfiles|].
  rewrite Herrors. apply (errors_app_info s1 [_]).
Qed.

Lemma download_files_outside_files_dir_witness :
  exists s2,
    download_files
      (Scenario.env
         [ (Scenario.download_endpoint "//tmp/x", Scenario.link "https://dl/x");
           ("https://dl/x", Scenario.body "xxx") ])
      "k" ([] ++ ["//tmp/x"]) Scenario.start = (Ok tt, s2)
    /\ files s2 !! "/tmp/x" = Some "xxx".
Proof.
  destruct (download_files_outside_files_dir
              (Scenario.env
                 [ (Scenario.download_endpoint "//tmp/x",
                    Scenario.link "https://dl/x");
                   ("https://dl/x", Scenario.body "xxx") ])
              "k" [] "/" "tmp/x" Scenario.start Scenario.start
              {| response_json := Ok (JObj {[ "href" := JStr "https://dl/x" ]});
                 content := "" |}
              {[ "href" := JStr "https://dl/x" ]} "https://dl/x"
              {| response_json := Raise Scenario.json_decode_error;
                 content := "xxx" |}
              eq_refl eq_refl eq_refl eq_refl eq_refl eq_refl eq_refl eq_refl)
    as (s2 & Hrun & Hfiles & _).
  exists s2. split; [exact Hrun|]. rewrite Hfiles. reflexivity.
Defined.

(** X19: a write that fails does not leave the local file as it was:
    [open(..., "wb")] has emptied it, so when the link and the bytes were
    obtained, the directory and the file could be opened and the write
    raises, the file exists and holds only what the failed write got
    through; the failure is logged for the path and the call goes on. *)
Theorem download_files_failed_write (E : Env) (public_key : string)
    (before : list string) (file_path : string) (s s1 : State)
    (response : Response) (m : gmap string json) (href : string)
    (response_content : Response) (e : exn) (written : string) :
  let url := download_url E (quote E (replace_space_plus public_key)) file_path in
  download_files E public_key before s = (Ok tt, s1) ->
  http_get E (net s1) url = Ok response ->
  response_json response = Ok (JObj m) ->
  m !! "href" = Some (JStr href) ->
  http_get E (net s1 ++ [url]) href = Ok response_content ->
  fs_mkdir E (files s1) (FILES_DIR E) = None ->
  fs_open_wb E (files s1) (file_local_path E file_path) = None ->
  fs_write E (<[file_local_path E file_path := ""]> (files s1))
    (file_local_path E file_path) (content response_content)
  = Some (e, written) ->
  exists s2,
    download_files E public_key (before ++ [file_path]) s = (Ok tt, s2)
    /\ files s2 = <[file_local_path E file_path := written]> (files s1)
    /\ errors s2
       = errors s1
         ++ ["Failed to download file " +:+ file_path +:+ ": " +:+ exn_str e].
Proof.
  intros url Hbefore Hlink Hjson Hhref Hget Hmkdir Hopen Hwrite.
  rewrite (download_files_snoc _ _ _ _ _ _ _ Hbefore Hlink).
  unfold fetch_and_write, bind, lift, requests_get_json, requests_get,
    path_mkdir, open_wb, file_write, logger_info, modify, link_requested.
  subst url. rewrite Hjson. simpl. rewrite Hhref. simpl. rewrite Hget. simpl.
  rewrite Hmkdir. simpl. rewrite Hopen. simpl. rewrite Hwrite. simpl.
  eexists. split; [done|]. split; [apply insert_insert_eq|].
  unfold errors. simpl. rewrite !omap_app. simpl. by rewrite app_nil_r.
Qed.

Lemma download_files_failed_write_witness :
  exists s2,
    download_files
      {| quote := quote Scenario.all_served;
         urlencode := urlencode Scenario.all_served;
         urljoin := urljoin Scenario.all_served;
         YANDEX_DISK_PUBLIC_RESOURCES_BASE_URL :=
           YANDEX_DISK_PUBLIC_RESOURCES_BASE_URL Scenario.all_served;
         BASE_DIR := BASE_DIR Scenario.all_served;
         http_get := http_get Scenario.all_served;
         http_bad_url := http_bad_url Scenario.all_served;
         fs_mkdir := fs_mkdir Scenario.all_served;
         fs_open_wb := fs_open_wb Scenario.all_served;
         fs_write := fun _ _ _ =>
           Some (Exn "OSError" "[Errno 28] No space left on device", "a") |}
      "k" ([] ++ ["/A"])
      {| heap := heap Scenario.start; log := []; net := [];
         files := {[ "/srv/yandex_disk_project/../files/A" := "old" ]} |}
    = (Ok tt, s2)
    /\ files s2 !! "/srv/yandex_disk_project/../files/A" = Some "a".
Proof.
  destruct (download_files_failed_write
              {| quote := quote Scenario.all_served;
                 urlencode := urlencode Scenario.all_served;
                 urljoin := urljoin Scenario.all_served;
                 YANDEX_DISK_PUBLIC_RESOURCES_BASE_URL :=
                   YANDEX_DISK_PUBLIC_RESOURCES_BASE_URL Scenario.all_served;
                 BASE_DIR := BASE_DIR Scenario.all_served;
                 http_get := http_get Scenario.all_served;
                 http_bad_url := http_bad_url Scenario.all_served;
                 fs_mkdir := fs_mkdir Scenario.all_served;
                 fs_open_wb := fs_open_wb Scenario.all_served;
                 fs_write := fun _ _ _ =>
                   Some (Exn "OSError" "[Errno 28] No space left on device",
                         "a") |}
              "k" [] "/A"
              {| heap := heap Scenario.start; log := []; net := [];
                 files := {[ "/srv/yandex_disk_project/../files/A" := "old" ]} |}
              {| heap := heap Scenario.start; log := []; net := [];
                 files := {[ "/srv/yandex_disk_project/../files/A" := "old" ]} |}
              {| response_json := Ok (JObj {[ "href" := JStr "https://dl/A" ]});
                 content := "" |}
              {[ "href" := JStr "https://dl/A" ]} "https://dl/A"
              {| response_json := Raise Scenario.json_decode_error;
                 content := "aaa" |}
              (Exn "OSError" "[Errno 28] No space left on device") "a"
              eq_refl eq_refl eq_refl eq_refl eq_refl eq_refl eq_refl eq_refl)
    as (s2 & Hrun & Hfiles & _).
  exists s2. split; [exact Hrun|]. rewrite Hfiles. reflexivity.
Defined.

(** ** The public key and the files directory *)

Lemma replace_space_plus_get (s : string) (n : nat) :
  String.get n (replace_space_plus s)
  = (fun c : ascii => if bool_decide (c = " "%char) then "+"%char else c)
      <$> String.get n s.
Proof.
  revert n. induction s as [|c s IH]; intros [|n]; simpl; done.
Qed.

Lemma replace_space_plus_idem (s : string) :
  replace_space_plus (replace_space_plus s) = replace_space_plus s.
Proof.
  induction s as [|c s IH]; [done|]. simpl. rewrite IH. f_equal.
  by repeat case_bool_decide.
Qed.

(** X20: before it is quoted, the public key has its spaces replaced by
    plus signs, one for one: the length is kept, no space is left, a key
    without spaces is not changed, and doing it twice changes nothing
    more. Hence a key and the same key with its spaces written as plus
    signs are downloaded from in exactly the same way. *)
Theorem public_key_spaces (E : Env) (public_key : string) :
  String.length (replace_space_plus public_key) = String.length public_key
  /\ (forall n, String.get n (replace_space_plus public_key) <> Some " "%char)
  /\ ((forall n, String.get n public_key <> Some " "%char) ->
      replace_space_plus public_key = public_key)
  /\ (forall files_paths s,
        download_files E (replace_space_plus public_key) files_paths s
        = download_files E public_key files_paths s).
Proof.
  split; [|split; [|split]].
  - induction public_key as [|c k IH]; [done|]. simpl. by rewrite IH.
  - intros n. rewrite replace_space_plus_get.
    destruct (String.get n public_key) as [c|]; [|done]. simpl.
    case_bool_decide; [done|]. congruence.
  - induction public_key as [|c k IH]; [done|]. intros Hno. simpl.
    rewrite IH by (intros n; apply (Hno (S n))). f_equal.
    case_bool_decide as Hc; [|done]. by destruct (Hno 0%nat); rewrite Hc.
  - intros files_paths s. unfold download_files.
    by rewrite replace_space_plus_idem.
Qed.



(** ** The views *)

Arguments get_public_resource_dict : simpl never.
Arguments download_files : simpl never.

(** The client hands on the exception of its request. *)
Lemma get_public_resource_dict_raises (E : Env) (params : loc) (s : State)
    (e : exn) :
  http_get E (net s) (listing_url E (requested_params (heap s params)))
  = Raise e ->
  (get_public_resource_dict E params s).1 = Raise e.
Proof.
  run_listing.
  destruct (fields (heap s params)) eqn:Hf; simpl;
    rewrite ?fn_lookup_insert; by intros ->.
Qed.

(** The client logs no error record, whatever the outcome. *)
Lemma listing_frame_errors (E : Env) (params : loc) (s : State) :
  errors (get_public_resource_dict E params s).2 = errors s.
Proof.
  run_listing.
  destruct (fields (heap s params)) eqn:Hf; simpl;
    rewrite ?fn_lookup_insert;
    (destruct (http_get E _ _) as [r|e]; simpl;
     [destruct (response_json r) as [j|e]; simpl;
      [destruct (contains "_embedded" j) as [[|]|e]; simpl;
       [destruct (pop "_embedded" j) as [[v j']|e]; simpl;
        [destruct (setitem "embedded" v j') as [j''|e]; simpl|]| |]|]|]);
    unfold errors; simpl; rewrite <- ?app_assoc; simpl;
    first [ apply (errors_app_info s [_])
          | apply (errors_app_info s [_; _])
          | apply (errors_app_info s [_; _; _]) ].
Qed.

(** The state in which [FileListView] calls the client: the first line
    logged, the new parameters behind their reference. *)
Definition listing_called (request : Views.HttpRequest) (params : loc)
    (s : State) : State :=
  let public_url := Views.get (Views.GET request) "public_url" "" in
  set_heap (<[params := init public_url]> (heap s))
    (set_log (log s ++ [(INFO, "Got the public URL from request: "
                               +:+ public_url)]) s).

(** The view around the client: the listing goes into the context under
    ["data"]; an exception is logged and raised again. *)
Lemma get_context_data_run (E : Env) {A} (of_json : json -> A)
    (context : gmap string A) (request : Views.HttpRequest) (params : loc)
    (s : State) :
  let called := get_public_resource_dict E params
                  (listing_called request params s) in
  Views.get_context_data E of_json context request params s
  = match called.1 with
    | Ok data_dict =>
        (Ok (<["data" := of_json data_dict]> context),
         set_log (log called.2 ++ [(INFO, "Resource data received")]) called.2)
    | Raise e =>
        (Raise e,
         set_log (log called.2
                  ++ [(ERROR, "Error while retrieving resource data: "
                              +:+ exn_str e)]) called.2)
    end.
Proof.
  unfold Views.get_context_data, Views.new_params, try_except, bind,
    logger_info, logger_error, raise, lift, ret, modify.
  simpl. fold (listing_called request params s).
  by destruct (get_public_resource_dict E params _) as [[d|e] s1].
Qed.

(** X23: when the upstream request fails, [FileListView] logs one error,
    ["Error while retrieving resource data: <e>"], and raises the same
    exception again; no context is returned. *)
Theorem file_list_view_failure (E : Env) {A} (of_json : json -> A)
    (context : gmap string A) (request : Views.HttpRequest) (params : loc)
    (s : State) (e : exn) :
  let public_url := Views.get (Views.GET request) "public_url" "" in
  let requested := set_fields (Some (Tuple default_fields)) (init public_url) in
  http_get E (net s) (listing_url E requested) = Raise e ->
  let run := Views.get_context_data E of_json context request params s in
  run.1 = Raise e
  /\ errors run.2
     = errors s ++ ["Error while retrieving resource data: " +:+ exn_str e].
Proof.
  intros public_url requested Hget run. subst run.
  rewrite get_context_data_run.
  assert (Hcalled : heap (listing_called request params s) params
                    = init public_url
                    /\ net (listing_called request params s) = net s
                    /\ errors (listing_called request params s) = errors s).
  { unfold listing_called. simpl. rewrite fn_lookup_insert.
    repeat split. apply (errors_app_info s [_]). }
  destruct Hcalled as (Hheap0 & Hnet0 & Herr0).
  pose proof (listing_frame_errors E params (listing_called request params s))
    as Herr.
  rewrite (get_public_resource_dict_raises E params _ e)
    by (by rewrite Hheap0, Hnet0).
  simpl. split; [done|].
  unfold errors in *. simpl. rewrite omap_app, Herr, Herr0. done.
Qed.

Lemma file_list_view_failure_witness :
  (Views.get_context_data (Scenario.env []) (fun j => j) ∅
     {| Views.GET := {[ "public_url" := ["k"] ]}; Views.POST := ∅ |}
     0%nat Scenario.start).1
  = Raise Scenario.connection_error.
Proof.
  apply (file_list_view_failure (Scenario.env []) (fun j => j) ∅
           {| Views.GET := {[ "public_url" := ["k"] ]}; Views.POST := ∅ |}
           0%nat Scenario.start).
  reflexivity.
Defined.

(** X24: when the upstream answer is a JSON object, [FileListView]
    returns the parent's context with the listing under ["data"], the
    embedded collection renamed: an entry ["data"] that the parent's
    context already had is replaced, every other entry is kept, and
    ["Resource data received"] is logged without any error. *)
Theorem file_list_view_context (E : Env) {A} (of_json : json -> A)
    (context : gmap string A) (request : Views.HttpRequest) (params : loc)
    (s : State) (r : Response) (m : gmap string json) :
  let public_url := Views.get (Views.GET request) "public_url" "" in
  let requested := set_fields (Some (Tuple default_fields)) (init public_url) in
  http_get E (net s) (listing_url E requested) = Ok r ->
  response_json r = Ok (JObj m) ->
  let run := Views.get_context_data E of_json context request params s in
  exists context',
    run.1 = Ok context'
    /\ context' !! "data" = Some (of_json (JObj (renamed m)))
    /\ (forall key, key <> "data" -> context' !! key = context !! key)
    /\ errors run.2 = errors s
    /\ last (log run.2) = Some (INFO, "Resource data received").
Proof.
  intros public_url requested Hget Hjson run. subst run.
  rewrite get_context_data_run.
  assert (Hstate : heap (listing_called request params s) params
                   = init public_url
                   /\ net (listing_called request params s) = net s).
  { unfold listing_called. simpl. by rewrite fn_lookup_insert. }
  destruct Hstate as [Hheap Hnet].
  assert (Hrun : (get_public_resource_dict E params
                    (listing_called request params s)).1
                 = Ok (JObj (renamed m))).
  { apply get_public_resource_dict_object with r; [|done].
    by rewrite Hheap, Hnet. }
  pose proof (listing_frame_errors E params (listing_called request params s))
    as Herr.
  rewrite Hrun. simpl. eexists. split; [done|].
  split; [apply lookup_insert_eq|]. split.
  - intros key Hkey. by apply lookup_insert_ne.
  - split; [|by rewrite last_snoc].
    unfold errors in *. simpl. rewrite omap_app. simpl. rewrite app_nil_r.
    rewrite Herr. unfold listing_called. simpl.
    apply (errors_app_info s [_]).
Qed.

Lemma file_list_view_context_witness :
  exists context',
    (Views.get_context_data (Scenario.serving (JObj Scenario.listing))
       (fun j => j) {[ "data" := JNull; "view" := JStr "FileListView" ]}
       {| Views.GET := {[ "public_url" := ["k"] ]}; Views.POST := ∅ |}
       0%nat Scenario.start).1 = Ok context'
    /\ context' !! "data" = Some (JObj (renamed Scenario.listing)).
Proof.
  destruct (file_list_view_context (Scenario.serving (JObj Scenario.listing))
              (fun j => j) {[ "data" := JNull; "view" := JStr "FileListView" ]}
              {| Views.GET := {[ "public_url" := ["k"] ]}; Views.POST := ∅ |}
              0%nat Scenario.start
              {| response_json := Ok (JObj Scenario.listing); content := "" |}
              Scenario.listing eq_refl eq_refl)
    as (context' & Hrun & Hdata & _).
  by exists context'.
Defined.

(** The state in which [DownloadFilesView.post] calls the client. *)
Definition download_called (repr : list string -> string)
    (request : Views.HttpRequest) (s : State) : State :=
  set_log
    (log s
     ++ [(INFO, "Uploading files. Public key: "
                +:+ Views.get (Views.GET request) "public_key" ""
                +:+ ", Selected files: "
                +:+ repr (Views.getlist (Views.POST request) "selected_files"))])
    s.

(** The view around the client: a normal end is logged as a success and
    redirected; an exception is logged and raised again. *)
Lemma post_run (E : Env) (files_list : string)
    (repr : list string -> string) (request : Views.HttpRequest) (s : State) :
  let called :=
    download_files E (Views.get (Views.GET request) "public_key" "")
      (Views.getlist (Views.POST request) "selected_files")
      (download_called repr request s) in
  let redirect_to :=
    urljoin E files_list
      ("?public_url=" +:+ Views.get (Views.GET request) "public_url" "") in
  Views.post E files_list repr request s
  = match called.1 with
    | Ok _ =>
        (Ok redirect_to,
         set_log (log called.2
                  ++ [(INFO, "Files uploaded successfully");
                      (INFO, "Redirect to: " +:+ redirect_to)]) called.2)
    | Raise e =>
        (Raise e,
         set_log (log called.2
                  ++ [(ERROR, "Error while downloading files: "
                              +:+ exn_str e)]) called.2)
    end.
Proof.
  unfold Views.post, try_except, bind, logger_info, logger_error, raise,
    lift, ret, modify.
  simpl. fold (download_called repr request s).
  destruct (download_files E _ _ _) as [[[]|e] s1]; simpl; [|done].
  by rewrite <- app_assoc.
Qed.

(** With every download link answered, the call ends normally. *)
Lemma download_files_ends_normally (E : Env) (public_key : string)
    (files_paths : list string) (s : State) :
  (forall trace file_path,
     file_path ∈ files_paths ->
     is_raise (http_get E trace
                 (download_url E (quote E (replace_space_plus public_key))
                    file_path)) = false) ->
  (download_files E public_key files_paths s).1 = Ok tt.
Proof.
  unfold download_files. generalize (quote E (replace_space_plus public_key)).
  intros npk Hlinks. revert s.
  induction files_paths as [|p l IH]; intros s; [done|]. simpl. unfold bind.
  destruct (http_get E (net s) (download_url E npk p)) as [r|e] eqn:Hget.
  2:{ specialize (Hlinks (net s) p ltac:(left)). by rewrite Hget in Hlinks. }
  rewrite (download_file_link_answered _ _ _ _ _ Hget).
  destruct (fetch_and_write E r p _).1; apply IH;
    intros trace q Hq; apply Hlinks; by right.
Qed.

(** X26: an exception that leaves the client leaves the view too:
    [DownloadFilesView.post] logs ["Error while downloading files: <e>"]
    as its last record and raises the same exception; it logs neither the
    success line nor a redirection. *)
Theorem post_failure (E : Env) (files_list : string)
    (repr : list string -> string) (request : Views.HttpRequest) (s : State)
    (e : exn) :
  let called :=
    download_files E (Views.get (Views.GET request) "public_key" "")
      (Views.getlist (Views.POST request) "selected_files")
      (download_called repr request s) in
  called.1 = Raise e ->
  let run := Views.post E files_list repr request s in
  run.1 = Raise e
  /\ log run.2
     = log called.2
       ++ [(ERROR, "Error while downloading files: " +:+ exn_str e)]
  /\ files run.2 = files called.2.
Proof.
  intros called Hcalled run. subst run. rewrite post_run. fold called.
  by rewrite Hcalled.
Qed.

Lemma post_failure_witness :
  (Views.post Scenario.link_of_B_unreachable "/v1/files/"
     (fun _ => "['/A', '/B', '/C']")
     {| Views.GET := {[ "public_key" := ["k"]; "public_url" := ["k"] ]};
        Views.POST := {[ "selected_files" := ["/A"; "/B"; "/C"] ]} |}
     Scenario.start).1
  = Raise Scenario.connection_error.
Proof.
  apply (post_failure Scenario.link_of_B_unreachable "/v1/files/"
           (fun _ => "['/A', '/B', '/C']")
           {| Views.GET := {[ "public_key" := ["k"]; "public_url" := ["k"] ]};
              Views.POST := {[ "selected_files" := ["/A"; "/B"; "/C"] ]} |}
           Scenario.start Scenario.connection_error).
  by vm_compute.
Defined.


(** ** The query of the listing request *)

Lemma append_nil_r (a : string) : a +:+ "" = a.
Proof. induction a as [|c a IH]; [done|]. by rewrite append_cons, IH. Qed.

(** The text [urlencode] builds for a mapping that begins with two
    entries: the two, and whatever the other entries add. *)
Lemma urlencode_two_entries (k1 k2 : string) (v1 v2 : Value)
    (others : list (string * Value)) (query : string) :
  urllib.urlencode ((k1, v1) :: (k2, v2) :: others) = Ok query ->
  exists text1 text2 rest,
    urllib.str v1 = Ok text1
    /\ urllib.str v2 = Ok text2
    /\ query
       = urllib.quote_plus k1 +:+ "=" +:+ urllib.quote_plus text1 +:+ "&"
         +:+ urllib.quote_plus k2 +:+ "=" +:+ urllib.quote_plus text2 +:+ rest
    /\ (rest = "" \/ startswith_char "&" rest = true).
Proof.
  unfold urllib.urlencode. simpl. unfold and_then.
  destruct (urllib.str v1) as [text1|]; [|done].
  destruct (urllib.str v2) as [text2|]; [|done].
  destruct (urllib.urlencode_parts others) as [l|]; [|done].
  intros [= <-]. exists text1, text2.
  destruct l as [|part l].
  - exists "". repeat split; [|by left]. simpl.
    by rewrite !append_assoc, append_nil_r.
  - exists ("&" +:+ String.concat "&" (part :: l)).
    repeat split; [|by right].
    change (String.concat "&" (?a :: ?b :: part :: l))
      with (a +:+ "&" +:+ b +:+ "&" +:+ String.concat "&" (part :: l)).
    by rewrite !append_assoc.
Qed.

(** The prepared ["fields"] entry is a [str], with the text [as_str]
    gives. *)
Lemma prepared_fields_str (p : ResourceRequestParams.t) (v : Value) :
  prepared_fields p = Some v ->
  exists text, as_str v = Some text /\ urllib.str v = Ok text.
Proof.
  unfold prepared_fields.
  destruct (fields p) as [[f|fs]|]; intros [= <-]; by eexists.
Qed.

(** The query of parameters that have selectors: the public key, then
    the selectors as [prepared_dict] turns them into text. *)
Lemma query_with_fields (p : ResourceRequestParams.t) (v : Value)
    (query : string) :
  prepared_fields p = Some v ->
  urllib.urlencode (prepared_dict p) = Ok query ->
  exists text rest,
    as_str v = Some text
    /\ query
       = "public_key=" +:+ urllib.quote_plus (public_key p)
         +:+ "&fields=" +:+ urllib.quote_plus text +:+ rest
    /\ (rest = "" \/ startswith_char "&" rest = true).
Proof.
  intros Hv. rewrite prepared_dict_entries, Hv. simpl. intros Hquery.
  apply urlencode_two_entries in Hquery
    as (text1 & text2 & rest & [= <-] & Htext2 & -> & Hrest).
  destruct (prepared_fields_str p v Hv) as (text & Has & Hstr).
  rewrite Hstr in Htext2. injection Htext2 as <-.
  exists text, rest. repeat split; try done.
Qed.

(** The address a call requests, when the environment's [urlencode] is
    the standard one and the query encodes. *)
Lemma listing_request_url (E : Env) (params : loc) (s : State)
    (query : string) :
  standard_urlencode E ->
  urllib.urlencode (prepared_dict (requested_params (heap s params)))
  = Ok query ->
  net (get_public_resource_dict E params s).2
  = net s ++ [urljoin E (YANDEX_DISK_PUBLIC_RESOURCES_BASE_URL E)
                ("?" +:+ query)].
Proof.
  intros Hstd Hquery.
  destruct (get_public_resource_dict_state E params s) as (Hnet & _).
  rewrite Hnet. unfold listing_url. by rewrite (Hstd _ _ Hquery).
Qed.

(** The text the default selectors are prepared to, and quoted to. *)
Lemma default_fields_text (p : ResourceRequestParams.t) :
  prepared_fields (set_fields (Some (Tuple default_fields)) p)
  = Some (VStr "name,public_url,_embedded.items.name,_embedded.items.type,_embedded.items.media_type,_embedded.items.public_url,path")
  /\ urllib.quote_plus
       "name,public_url,_embedded.items.name,_embedded.items.type,_embedded.items.media_type,_embedded.items.public_url,path"
     = "name%2Cpublic_url%2C_embedded.items.name%2C_embedded.items.type%2C_embedded.items.media_type%2C_embedded.items.public_url%2Cpath".
Proof. split; [reflexivity|by vm_compute]. Qed.

(** C7 (as the code has it): take the standard [urlencode], and a call
    whose query encodes (its [limit] and [offset], if any, within the
    digits the interpreter converts to text). When the parameters have no
    selectors, the call issues exactly one request, for the base address
    joined with a query that reads [public_key=<key>], then
    [fields=] with the seven default selectors (the resource's name,
    public URL and path, the embedded children's name, type, media type
    and public URL) comma-separated and quoted, then the other fields.
    When the parameters do have selectors, the one request carries the
    public key and the caller's selectors as [prepared_dict] gives them,
    and the object is left as it was. *)
Theorem listing_request_selectors (E : Env) (params : loc) (s : State) :
  standard_urlencode E ->
  let p := heap s params in
  let s' := (get_public_resource_dict E params s).2 in
  let base := YANDEX_DISK_PUBLIC_RESOURCES_BASE_URL E in
  (forall query,
     fields p = None ->
     urllib.urlencode
       (prepared_dict (set_fields (Some (Tuple default_fields)) p))
     = Ok query ->
     net s' = net s ++ [urljoin E base ("?" +:+ query)]
     /\ exists rest,
          query
          = "public_key=" +:+ urllib.quote_plus (public_key p)
            +:+ "&fields=name%2Cpublic_url%2C_embedded.items.name%2C_embedded.items.type%2C_embedded.items.media_type%2C_embedded.items.public_url%2Cpath"
            +:+ rest
          /\ (rest = "" \/ startswith_char "&" rest = true))
  /\ (forall selectors query,
        fields p = Some selectors ->
        urllib.urlencode (prepared_dict p) = Ok query ->
        net s' = net s ++ [urljoin E base ("?" +:+ query)]
        /\ heap s' params = p
        /\ exists text rest,
             (dict_get "fields" (prepared_dict p) ≫= as_str) = Some text
             /\ query
                = "public_key=" +:+ urllib.quote_plus (public_key p)
                  +:+ "&fields=" +:+ urllib.quote_plus text +:+ rest
             /\ (rest = "" \/ startswith_char "&" rest = true))
  /\ default_fields
     ≡ₚ [ FieldOptions.NAME; FieldOptions.PUBLIC_URL; FieldOptions.PATH;
          FieldOptions.EMBEDDED_ITEMS_NAME; FieldOptions.EMBEDDED_ITEMS_TYPE;
          FieldOptions.EMBEDDED_ITEMS_MEDIA_TYPE;
          FieldOptions.EMBEDDED_ITEMS_PUBLIC_URL ].
Proof.
  intros Hstd p s' base. split; [|split].
  - intros query Hf Hquery. split.
    + apply listing_request_url; [done|].
      unfold requested_params. fold p. by rewrite Hf.
    + destruct (default_fields_text p) as [Hprep Hquoted].
      destruct (query_with_fields _ _ _ Hprep Hquery)
        as (text & rest & [= <-] & -> & Hrest).
      exists rest. by rewrite Hquoted.
  - intros selectors query Hf Hquery.
    destruct (get_public_resource_dict_state E params s) as (_ & Hheap & _).
    fold s' in Hheap. unfold requested_params in Hheap. fold p in Hheap.
    rewrite Hf in Hheap. split; [|split; [done|]].
    + apply listing_request_url; [done|].
      unfold requested_params. fold p. by rewrite Hf.
    + assert (Hprep : exists v, prepared_fields p = Some v
                                /\ dict_get "fields" (prepared_dict p) = Some v).
      { rewrite prepared_dict_fields. unfold prepared_fields. rewrite Hf.
        destruct selectors; by eexists. }
      destruct Hprep as (v & Hprep & Hget).
      destruct (query_with_fields _ _ _ Hprep Hquery)
        as (text & rest & Has & -> & Hrest).
      exists text, rest. by rewrite Hget.
  - unfold default_fields.
    do 2 apply Permutation_skip. symmetry. apply Permutation_cons_append.
Qed.

Lemma serving_standard (doc : json) : standard_urlencode (Scenario.serving doc).
Proof. intros query text H. simpl. by rewrite H. Qed.

Lemma env_standard (table : list (string * Result Response)) :
  standard_urlencode (Scenario.env table).
Proof. intros query text H. simpl. by rewrite H. Qed.

Lemma listing_request_selectors_witness :
  net (get_public_resource_dict (Scenario.serving (JObj Scenario.listing))
         0%nat Scenario.start).2
  = [] ++ [ "https://cloud-api.yandex.net/v1/disk/public/resources/"
            +:+ "?" +:+ "public_key=k&fields=name%2Cpublic_url%2C_embedded.items.name%2C_embedded.items.type%2C_embedded.items.media_type%2C_embedded.items.public_url%2Cpath&limit=1000000000000000000" ].
Proof.
  destruct (listing_request_selectors
              (Scenario.serving (JObj Scenario.listing)) 0%nat Scenario.start
              (serving_standard _))
    as (Hdefault & _).
  destruct (Hdefault
              "public_key=k&fields=name%2Cpublic_url%2C_embedded.items.name%2C_embedded.items.type%2C_embedded.items.media_type%2C_embedded.items.public_url%2Cpath&limit=1000000000000000000"
              eq_refl ltac:(by vm_compute)) as [Hnet _].
  exact Hnet.
Defined.

(** The parameters with no selectors and a [limit] of 4301 digits. *)
Definition long_limit : ResourceRequestParams.t :=
  {| public_key := "k"; fields := None; limit := Some (10 ^ 4300);
     offset := None; path := None; preview_crop := None;
     preview_size := None; sort := None |}.

(** C7 as stated fails: for parameters without selectors whose [limit]
    has 4301 digits there is no query with the default selectors, and so
    no request that carries them: [urlencode] raises on the [limit]. *)
Lemma listing_request_needs_a_query :
  let E := Scenario.serving (JObj Scenario.listing) in
  let s := {| heap := fun _ => long_limit; log := []; net := [];
              files := ∅ |} in
  ~ exists query,
      urllib.urlencode
        (prepared_dict (set_fields (Some (Tuple default_fields)) long_limit))
      = Ok query
      /\ net (get_public_resource_dict E 0%nat s).2
         = net s ++ [urljoin E (YANDEX_DISK_PUBLIC_RESOURCES_BASE_URL E)
                       ("?" +:+ query)].
Proof.
  intros E s [query [Hquery _]].
  assert (Hr : is_raise
                 (urllib.urlencode
                    (prepared_dict
                       (set_fields (Some (Tuple default_fields)) long_limit)))
               = true) by (vm_compute; reflexivity).
  rewrite Hquery in Hr. discriminate Hr.
Qed.

(** X7: an empty tuple of selectors is not the same as no selectors.
    It prepares to a ["fields"] entry with the empty text, and (with the
    standard [urlencode], for a query that encodes)
    [get_public_resource_dict] keeps it: the object is left as it was and
    the one request carries [fields=] with nothing after it but the other
    fields, not the default selectors. *)
Theorem empty_tuple_is_kept (E : Env) (params : loc) (s : State)
    (query : string) :
  standard_urlencode E ->
  fields (heap s params) = Some (Tuple []) ->
  urllib.urlencode (prepared_dict (heap s params)) = Ok query ->
  let p := heap s params in
  let s' := (get_public_resource_dict E params s).2 in
  dict_get "fields" (prepared_dict p) = Some (VStr "")
  /\ heap s' params = p
  /\ net s' = net s ++ [urljoin E (YANDEX_DISK_PUBLIC_RESOURCES_BASE_URL E)
                         ("?" +:+ query)]
  /\ exists rest,
       query = "public_key=" +:+ urllib.quote_plus (public_key p)
               +:+ "&fields=" +:+ rest
       /\ (rest = "" \/ startswith_char "&" rest = true).
Proof.
  intros Hstd Hf Hquery p s'. subst p.
  destruct (get_public_resource_dict_state E params s) as (_ & Hheap & _).
  fold s' in Hheap. unfold requested_params in Hheap. rewrite Hf in Hheap.
  split; [by rewrite prepared_dict_fields, Hf|]. split; [done|]. split.
  - apply listing_request_url; [done|]. unfold requested_params.
    by rewrite Hf.
  - assert (Hprep : prepared_fields (heap s params) = Some (VStr "")).
    { unfold prepared_fields. by rewrite Hf. }
    destruct (query_with_fields _ _ _ Hprep Hquery)
      as (text & rest & [= <-] & -> & Hrest).
    by exists rest.
Qed.

Lemma empty_tuple_is_kept_witness :
  net (get_public_resource_dict (Scenario.serving (JObj Scenario.listing))
         0%nat
         {| heap := fun _ => set_fields (Some (Tuple [])) (init "k");
            log := []; net := []; files := ∅ |}).2
  = [] ++ [ "https://cloud-api.yandex.net/v1/disk/public/resources/"
            +:+ "?" +:+ "public_key=k&fields=&limit=1000000000000000000" ].
Proof.
  destruct (empty_tuple_is_kept
              (Scenario.serving (JObj Scenario.listing)) 0%nat
              {| heap := fun _ => set_fields (Some (Tuple [])) (init "k");
                 log := []; net := []; files := ∅ |}
              "public_key=k&fields=&limit=1000000000000000000"
              (serving_standard _) eq_refl ltac:(by vm_compute))
    as (_ & _ & Hnet & _).
  exact Hnet.
Defined.

Lemma listing_frame_witness :
  length (net (get_public_resource_dict
                 (Scenario.serving (JObj Scenario.listing)) 0%nat
                 Scenario.start).2)
  = S (length (net Scenario.start)).
Proof.
  apply (listing_frame (Scenario.serving (JObj Scenario.listing)) 0%nat
           Scenario.start
           "public_key=k&fields=name%2Cpublic_url%2C_embedded.items.name%2C_embedded.items.type%2C_embedded.items.media_type%2C_embedded.items.public_url%2Cpath&limit=1000000000000000000").
  by vm_compute.
Defined.

(** The query [FileListView] requests with: the key it was given, the
    default selectors, the default limit. *)
Lemma view_query (public_url : string) :
  urllib.urlencode
    (prepared_dict
       (set_fields (Some (Tuple default_fields)) (init public_url)))
  = Ok ("public_key=" +:+ urllib.quote_plus public_url
        +:+ "&fields=name%2Cpublic_url%2C_embedded.items.name%2C_embedded.items.type%2C_embedded.items.media_type%2C_embedded.items.public_url%2Cpath&limit=1000000000000000000").
Proof.
  change (prepared_dict
            (set_fields (Some (Tuple default_fields)) (init public_url)))
    with [ ("public_key", VStr public_url);
           ("fields",
            VStr "name,public_url,_embedded.items.name,_embedded.items.type,_embedded.items.media_type,_embedded.items.public_url,path");
           ("limit", VInt (10 ^ 18)) ].
  unfold urllib.urlencode, urllib.urlencode_parts, urllib.str, and_then.
  assert (Hlimit : str_int (10 ^ 18) = Ok "1000000000000000000")
    by (by vm_compute).
  rewrite Hlimit.
  assert (Hfields : urllib.quote_plus
    "name,public_url,_embedded.items.name,_embedded.items.type,_embedded.items.media_type,_embedded.items.public_url,path"
    = "name%2Cpublic_url%2C_embedded.items.name%2C_embedded.items.type%2C_embedded.items.media_type%2C_embedded.items.public_url%2Cpath")
    by (by vm_compute).
  rewrite Hfields.
  change (urllib.quote_plus "public_key") with "public_key".
  change (urllib.quote_plus "fields") with "fields".
  change (urllib.quote_plus "limit") with "limit".
  change (urllib.quote_plus "1000000000000000000") with "1000000000000000000".
  reflexivity.
Qed.

(** X22: with the standard [urlencode], whatever the request,
    [FileListView] asks the upstream API for the listing exactly once,
    at the base address joined with the query that reads
    [public_key=<the public_url parameter, quoted; empty when absent>],
    then [fields=] with the default selectors, then the default limit:
    the caller of the view cannot choose selectors. The view writes no
    file and changes no parameter object but its own. *)
Theorem file_list_view_request (E : Env) {A} (of_json : json -> A)
    (context : gmap string A) (request : Views.HttpRequest) (params : loc)
    (s : State) :
  standard_urlencode E ->
  let public_url :=
    default "" (Views.GET request !! "public_url" ≫= last) in
  let requested := set_fields (Some (Tuple default_fields)) (init public_url) in
  let run := Views.get_context_data E of_json context request params s in
  net run.2
  = net s
    ++ [urljoin E (YANDEX_DISK_PUBLIC_RESOURCES_BASE_URL E)
          ("?public_key=" +:+ urllib.quote_plus public_url
           +:+ "&fields=name%2Cpublic_url%2C_embedded.items.name%2C_embedded.items.type%2C_embedded.items.media_type%2C_embedded.items.public_url%2Cpath&limit=1000000000000000000")]
  /\ heap run.2 params = requested
  /\ (forall l, l <> params -> heap run.2 l = heap s l)
  /\ files run.2 = files s.
Proof.
  intros Hstd public_url requested run.
  assert (Hurl : Views.get (Views.GET request) "public_url" "" = public_url).
  { unfold Views.get, public_url.
    by destruct (Views.GET request !! "public_url") as [values|]. }
  subst run. rewrite get_context_data_run.
  assert (Hcalled : heap (listing_called request params s) params
                    = init public_url
                    /\ net (listing_called request params s) = net s
                    /\ files (listing_called request params s) = files s
                    /\ forall l, l <> params ->
                         heap (listing_called request params s) l = heap s l).
  { unfold listing_called. simpl. rewrite fn_lookup_insert, Hurl.
    repeat split. intros l Hl. by apply fn_lookup_insert_ne. }
  destruct Hcalled as (Hheap0 & Hnet0 & Hfiles0 & Hframe0).
  destruct (get_public_resource_dict_state E params
              (listing_called request params s))
    as (Hnet & Hheap & Hframe & Hfiles).
  set (called := get_public_resource_dict E params
                   (listing_called request params s)) in *.
  rewrite Hheap0 in Hnet, Hheap. rewrite Hnet0 in Hnet.
  rewrite Hfiles0 in Hfiles.
  change (requested_params (init public_url)) with requested in Hheap.
  change (requested_params (init public_url))
    with (set_fields (Some (Tuple default_fields)) (init public_url)) in Hnet.
  unfold listing_url in Hnet.
  rewrite (Hstd _ _ (view_query public_url)) in Hnet.
  assert (Hothers : forall l, l <> params -> heap called.2 l = heap s l).
  { intros l Hl. rewrite Hframe by done. by apply Hframe0. }
  by destruct called.1; simpl.
Qed.

Lemma file_list_view_request_witness :
  net (Views.get_context_data (Scenario.serving (JObj Scenario.listing))
         (fun j => j) ∅
         {| Views.GET := {[ "public_url" := ["a b"] ]}; Views.POST := ∅ |}
         0%nat Scenario.start).2
  = [] ++ [ "https://cloud-api.yandex.net/v1/disk/public/resources/"
            +:+ "?public_key=" +:+ "a+b"
            +:+ "&fields=name%2Cpublic_url%2C_embedded.items.name%2C_embedded.items.type%2C_embedded.items.media_type%2C_embedded.items.public_url%2Cpath&limit=1000000000000000000" ].
Proof.
  destruct (file_list_view_request
              (Scenario.serving (JObj Scenario.listing)) (fun j => j) ∅
              {| Views.GET := {[ "public_url" := ["a b"] ]}; Views.POST := ∅ |}
              0%nat Scenario.start (serving_standard _)) as [Hnet _].
  exact Hnet.
Defined.

(** ** The download view as a whole *)

(** X25: [DownloadFilesView.post] reports success whether or not the
    files were stored: as long as the download link of every selected file
    is answered, the view logs ["Files uploaded successfully"] and hands
    [redirect] the listing address with the [public_url] query parameter,
    however many of the downloads failed and were logged as errors by the
    client. The view adds no error of its own, and its outcome is the
    outcome of [redirect] on that address: the response, or the exception
    [redirect] raises for an address it does not allow. *)
Theorem post_reports_success (E : Env) {R} (redirect : string -> Result R)
    (files_list : string) (repr : list string -> string)
    (request : Views.HttpRequest) (s : State) :
  let public_key := Views.get (Views.GET request) "public_key" "" in
  let selected_files := Views.getlist (Views.POST request) "selected_files" in
  (forall trace file_path,
     file_path ∈ selected_files ->
     is_raise (http_get E trace
                 (download_url E (quote E (replace_space_plus public_key))
                    file_path)) = false) ->
  let called :=
    download_files E public_key selected_files (download_called repr request s) in
  let redirect_to :=
    urljoin E files_list
      ("?public_url=" +:+ Views.get (Views.GET request) "public_url" "") in
  let run := Views.post_response E redirect files_list repr request s in
  run.1 = redirect redirect_to
  /\ log run.2
     = log called.2
       ++ [(INFO, "Files uploaded successfully");
           (INFO, "Redirect to: " +:+ redirect_to)]
  /\ errors run.2 = errors called.2
  /\ files run.2 = files called.2.
Proof.
  intros public_key selected_files Hlinks called redirect_to run. subst run.
  unfold Views.post_response, bind, lift. rewrite post_run.
  fold public_key selected_files called redirect_to.
  unfold called. rewrite download_files_ends_normally by done. simpl.
  repeat split. apply (errors_app_info _ [_; _]).
Qed.

Lemma post_reports_success_witness :
  let run :=
    Views.post_response Scenario.content_of_B_unreachable
      (fun address => Ok address) "/v1/files/"
      (fun _ => "['/A', '/B', '/C']")
      {| Views.GET := {[ "public_key" := ["k"]; "public_url" := ["k"] ]};
         Views.POST := {[ "selected_files" := ["/A"; "/B"; "/C"] ]} |}
      Scenario.start in
  run.1 = Ok ("/v1/files/" +:+ "?public_url=" +:+ "k")
  /\ errors run.2
     = ["Failed to download file /B: Failed to establish a new connection"].
Proof.
  destruct (post_reports_success Scenario.content_of_B_unreachable
              (fun address => Ok address) "/v1/files/"
              (fun _ => "['/A', '/B', '/C']")
              {| Views.GET := {[ "public_key" := ["k"]; "public_url" := ["k"] ]};
                 Views.POST := {[ "selected_files" := ["/A"; "/B"; "/C"] ]} |}
              Scenario.start) as (Hrun & _ & Herr & _).
  - intros trace file_path Hin.
    repeat (apply elem_of_cons in Hin as [->|Hin]; [reflexivity|]).
    by apply elem_of_nil in Hin.
  - split; [exact Hrun|]. rewrite Herr. by vm_compute.
Defined.

(** ** The name of the local file *)

(** C3, where the code departs from it: the name of the local file is the
    path without its first character, whatever that character is, joined
    to the files directory by [os.path.join]. The path [a.txt], which has
    no leading separator, is not stored under its name in the files
    directory but as [.txt]; the path [//tmp/x] is not stored under the
    files directory at all but as [/tmp/x]. In both runs nothing fails
    and nothing is logged as an error. *)
Theorem download_files_name_not_as_claimed :
  let files_dir := "/srv/yandex_disk_project/../files" in
  let run := download_files Scenario.all_served "k" ["a.txt"] Scenario.start in
  let run' :=
    download_files
      (Scenario.env
         [ (Scenario.download_endpoint "//tmp/x", Scenario.link "https://dl/x");
           ("https://dl/x", Scenario.body "xxx") ])
      "k" ["//tmp/x"] Scenario.start in
  FILES_DIR Scenario.all_served = files_dir
  /\ run.1 = Ok tt
  /\ files run.2 !! (files_dir +:+ "/a.txt") = None
  /\ map_to_list (files run.2) = [(files_dir +:+ "/.txt", "text")]
  /\ errors run.2 = []
  /\ run'.1 = Ok tt
  /\ map_to_list (files run'.2) = [("/tmp/x", "xxx")]
  /\ errors run'.2 = [].
Proof. vm_compute. repeat split. Qed.
